(** * Generator/classification/helpers.py

    A shallow embedding of the few-shot classification helpers: the
    [PromptedClassificationDataset] container, the TSV loader, the
    verbalizer table and the reward factory, followed by the properties
    the specification states about them.

    Conventions of the embedding.
    - A Python [str] is a [string] holding its UTF-8 bytes.  Every literal
      the module compares against or searches for is ASCII, so equality,
      [startswith], [endswith] and the [in] substring test agree with their
      code-point versions.
    - A Python [int] is a [Z]; a [float] is a primitive [float]; [None] in an
      [Optional] is [None] of [option].
    - A call either returns a value or raises: [result].  Calls that touch the
      outside world ([pandas.read_csv], the reward constructor) run in the
      monad [M], which threads the log of those external calls.
    - A name a function body reads without assigning it is looked up, when
      the body runs, in the module's global namespace; that namespace is an
      explicit argument, and [helpers_globals] is the one the module's own
      text builds.
    - [assert] is taken as it runs without [-O]; paths are joined as
      [posixpath] does. *)

From Stdlib Require Import ZArith PrimFloat Ascii.
From stdpp Require Import gmap strings list pretty.

Local Open Scope string_scope.
Local Open Scope Z_scope.

(** ** Python values, exceptions and the effect monad *)

Module Py.

(** The values that cross the module's boundary: cells of a data frame,
    items of a dataset, positional arguments of a constructor. *)
#[warnings="-register-all"]
Inductive pyval : Type :=
| PyNone
| PyBool (b : bool)
| PyInt (z : Z)
| PyFloat (f : float)
| PyStr (s : string)
| PyList (l : list pyval).

(** What a name of the module's global namespace can be bound to.  Only a
    dict keyed by [Optional[int]] with string values is looked into; any
    other object (a module, a class, a function) is opaque. *)
Inductive pyobj : Type :=
| PyOpaque
| PyDict (d : gmap (option Z) string).

Inductive exn : Type :=
| AssertionError
| NameError (name : string)
| UnboundLocalError (name : string)
| KeyError
| IndexError
| TypeError
| AttributeError (attr : string)
| FileNotFoundError (path : string)
| OtherError (msg : string).

Inductive result (A : Type) : Type :=
| Ok (a : A)
| Raise (e : exn).
Arguments Ok {A} a.
Arguments Raise {A} e.

(** A pandas data frame, as far as the module looks at it: its columns by
    name, each with its values in file order. *)
Definition DataFrame : Type := gmap string (list pyval).

(** The calls that leave the module. *)
Inductive event : Type :=
| ReadCsv (path : string)
| NewReward (args : list pyval).

Definition M (A : Type) : Type := list event → result A * list event.

Definition ret {A} (a : A) : M A := λ log, (Ok a, log).

Definition bind {A B} (m : M A) (k : A → M B) : M B :=
  λ log, match m log with
         | (Ok a, log') => k a log'
         | (Raise e, log') => (Raise e, log')
         end.

Definition raise {A} (e : exn) : M A := λ log, (Raise e, log).

Definition lift {A} (r : result A) : M A := λ log, (r, log).

(** An external call: logged first, then answered by the environment. *)
Definition call {A} (ev : event) (answer : result A) : M A :=
  λ log, (answer, (log ++ [ev])%list).

(** Running a computation from an empty log. *)
Definition run {A} (m : M A) : result A * list event := m [].

(** [assert c]: raises [AssertionError] when [c] is false. *)
Definition py_assert (c : bool) : M unit :=
  if c then ret tt else raise AssertionError.

(** A left-to-right [for] loop carrying the loop's variables. *)
Fixpoint for_each {A S} (xs : list A) (body : S → A → M S) (s : S) : M S :=
  match xs with
  | [] => ret s
  | x :: xs' => bind (body s x) (for_each xs' body)
  end.

(** [l[idx]] on a Python list: negative indices count from the end. *)
Definition list_getitem {A} (l : list A) (idx : Z) : result A :=
  let n := Z.of_nat (length l) in
  let i := if idx <? 0 then idx + n else idx in
  if (i <? 0) || (n <=? i) then Raise IndexError
  else match l !! Z.to_nat i with
       | Some x => Ok x
       | None => Raise IndexError
       end.

(** [d[k]] on a Python dict. *)
Definition dict_getitem `{Countable K} {V} (d : gmap K V) (k : K) : result V :=
  match d !! k with
  | Some v => Ok v
  | None => Raise KeyError
  end.

(** Reading a global name: unbound names raise [NameError]. *)
Definition load_global (globals : gmap string pyobj) (name : string) : result pyobj :=
  match globals !! name with
  | Some o => Ok o
  | None => Raise (NameError name)
  end.

(** [o[k]] on a global object. *)
Definition subscript (o : pyobj) (k : option Z) : result string :=
  match o with
  | PyDict d => dict_getitem d k
  | PyOpaque => Raise TypeError
  end.

(** Reading a local variable that may not have been assigned. *)
Definition load_fast {A} (name : string) (v : option A) : result A :=
  match v with
  | Some a => Ok a
  | None => Raise (UnboundLocalError name)
  end.

(** [needle in hay] on strings. *)
Fixpoint str_in (needle hay : string) : bool :=
  String.prefix needle hay ||
  match hay with
  | EmptyString => false
  | String _ hay' => str_in needle hay'
  end.

(** [s.endswith("/")] *)
Fixpoint ends_with_sep (s : string) : bool :=
  match s with
  | EmptyString => false
  | String c EmptyString => bool_decide (c = "/"%char)
  | String _ s' => ends_with_sep s'
  end.

(** [os.path.join(a, b)] of posixpath, for two components. *)
Definition os_path_join (a b : string) : string :=
  if String.prefix "/" b then b
  else if bool_decide (a = "") || ends_with_sep a then a +:+ b
  else a +:+ "/" +:+ b.

(** [df.<name>.tolist()]: a column read as an attribute of the frame. *)
Definition column (df : DataFrame) (name : string) : result (list pyval) :=
  match df !! name with
  | Some vs => Ok vs
  | None => Raise (AttributeError name)
  end.

(** [Optional[str]] and [Optional[bool]] as values. *)
Definition of_opt_str (o : option string) : pyval :=
  match o with Some s => PyStr s | None => PyNone end.
Definition of_opt_bool (o : option bool) : pyval :=
  match o with Some b => PyBool b | None => PyNone end.

End Py.

Import Py.

#[export] Instance M_ret : MRet M := @ret.
#[export] Instance M_bind : MBind M := λ A B k m, bind m k.

(** ** class PromptedClassificationDataset *)

Module PromptedClassificationDataset.

Record t : Type := mk {
  source_texts : list pyval;
  class_labels : list pyval
}.

Definition __init__ (source_texts class_labels : list pyval) : result t :=
  if bool_decide (length source_texts = length class_labels)
  then Ok (mk source_texts class_labels)
  else Raise AssertionError.

Definition __len__ (self : t) : Z :=
  Z.of_nat (length (source_texts self)).

Definition __getitem__ (self : t) (idx : Z) : result (gmap string pyval) :=
  match list_getitem (source_texts self) idx with
  | Raise e => Raise e
  | Ok text =>
      match list_getitem (class_labels self) idx with
      | Raise e => Raise e
      | Ok label => Ok {[ "source_texts" := text; "class_labels" := label ]}
      end
  end.

End PromptedClassificationDataset.

(** ** The configuration objects *)

(** The composed [DictConfig] handed to the two factories: the fields of
    both dataclasses plus [task_lm], read as attributes.  Every field
    holds a value: a mandatory field left at the dataclass placeholder
    '???' is no string but a missing value, whose read raises inside the
    config object before any code of this module runs. *)
Module DictConfig.

Record t : Type := mk {
  dataset : string;
  dataset_seed : option Z;
  base_path : string;
  num_shots : Z;
  task_lm : string;
  is_mask_lm : option bool;
  compute_zscore : bool;
  incorrect_coeff : float;
  correct_coeff : float;
  clean_prompt : option string;
  target_label : option Z
}.

End DictConfig.

(** ** get_dataset_verbalizers *)

(** The datasets both [load_few_shot_classification_dataset] and
    [get_dataset_verbalizers] test membership in. *)
Definition datasets : list string := ["CoLA"; "yelp"; "agnews"; "ReCoRD"; "QuAC"].

(** ['Ġterrible'], ['Ġgreat']: U+0120 is the bytes C4 A0. *)
Definition G_terrible : string := "Ġterrible".
Definition G_great : string := "Ġgreat".
(** U+2581 is the bytes E2 96 81. *)
Definition U_terrible : string := "▁terrible".
Definition U_great : string := "▁great".

Definition get_dataset_verbalizers (dataset task_lm : string) : result (list string) :=
  let verbalizers : option (list string) :=
    if bool_decide (dataset ∈ datasets) then
      let verbalizers := [G_terrible; G_great] in
      let verbalizers :=
        if bool_decide (task_lm = "bert-large-cased")
        then ["terrible"; "great"] else verbalizers in
      let verbalizers :=
        if bool_decide (task_lm ∈ ["llama-2-7b"; "llama-2-13b"])
        then [U_terrible; U_great] else verbalizers in
      let verbalizers :=
        if bool_decide (task_lm ∈ ["gpt4"; "gpt3.5"])
        then [G_terrible; G_great] else verbalizers in
      Some verbalizers
    else if bool_decide (dataset = "agnews") then
      Some ["World"; "Sports"; "Business"; "Tech"]
    else None in
  load_fast "verbalizers" verbalizers.

(** ** The functions that reach outside the module *)

Section helpers.

(** The module's global namespace when a function body runs. *)
Variable module_globals : gmap string pyobj.

(** [pandas.read_csv(path, sep='\t')] on the ambient file system: a frame,
    or whatever pandas raises for that path. *)
Variable read_csv : string → result DataFrame.

(** The constructor of [reward.PromptedClassificationReward], imported from
    outside, applied to its positional arguments. *)
Variable Reward : Type.
Variable PromptedClassificationReward : list pyval → result Reward.

Definition pd_read_csv (path : string) : M DataFrame :=
  call (ReadCsv path) (read_csv path).

(** The f-string [f'{num_shots}-shot/{dataset}/{seed_path}/{split}.tsv']. *)
Definition format_filepath (num_shots : Z) (dataset seed_path split : string) : string :=
  pretty num_shots +:+ "-shot/" +:+ dataset +:+ "/" +:+ seed_path +:+ "/" +:+ split +:+ ".tsv".

(** The loader: three assertions, the seed directory looked up in the
    global [seed_dict], one [read_csv], the columns, the verbalizers and
    the template, in source order. *)
Definition load_few_shot_classification_dataset
    (dataset : string) (dataset_seed : option Z) (split base_path : string)
    (num_shots : Z) (task_lm : string)
  : M (list pyval * list pyval * Z * list string * option string) :=
  py_assert (bool_decide (dataset ∈ datasets));;
  py_assert (bool_decide (split ∈ ["train"; "dev"; "test"]));;
  py_assert (bool_decide (num_shots ∈ [16]));;
  seed_dict ← lift (load_global module_globals "seed_dict");
  seed_path ← lift (subscript seed_dict dataset_seed);
  let filepath := format_filepath num_shots dataset seed_path split in
  let full_filepath := os_path_join base_path filepath in
  df ← pd_read_csv full_filepath;
  source_texts ←
    (if bool_decide ("text" ∈ dom df)
     then lift (column df "text")
     else lift (column df "sentence"));
  class_labels ← lift (column df "label");
  verbalizers ← lift (get_dataset_verbalizers dataset task_lm);
  let num_classes := Z.of_nat (length verbalizers) in
  let template : option string := None in
  let template :=
    if bool_decide (dataset = "agnews") && bool_decide (task_lm = "deberta-base")
    then Some "[MASK] {clean_prompt} {sentence}"
    else if bool_decide (dataset = "agnews") && negb (str_in "gpt" task_lm)
    then Some "<mask> {clean_prompt} {sentence}"
    else template in
  mret (source_texts, class_labels, num_classes, verbalizers, template).

(** The state of the loop in [make_few_shot_classification_dataset]:
    [data_dict] and the variables the loop body last assigned. *)
Definition loop_state : Type :=
  gmap string PromptedClassificationDataset.t * option (Z * list string * option string).

(** The loop over the three splits fills [data_dict]; the tuple is built
    after it from [data_dict] and from the variables the body assigned
    last. *)
Definition make_few_shot_classification_dataset (config : DictConfig.t)
  : M (PromptedClassificationDataset.t * PromptedClassificationDataset.t *
       PromptedClassificationDataset.t * Z * list string * option string) :=
  let data_dict : gmap string PromptedClassificationDataset.t := ∅ in
  st ← for_each ["train"; "dev"; "test"]
       (λ (st : loop_state) split,
          let data_dict := st.1 in
          '(source_texts, class_labels, num_classes, verbalizers, template) ←
            load_few_shot_classification_dataset
              (DictConfig.dataset config) (DictConfig.dataset_seed config)
              split (DictConfig.base_path config)
              (DictConfig.num_shots config) (DictConfig.task_lm config);
          fsc_dataset ← lift (PromptedClassificationDataset.__init__ source_texts class_labels);
          mret (<[split := fsc_dataset]> data_dict,
                Some (num_classes, verbalizers, template)))
       (data_dict, None);
  let data_dict := st.1 in
  train ← lift (dict_getitem data_dict "train");
  dev ← lift (dict_getitem data_dict "dev");
  test ← lift (dict_getitem data_dict "test");
  '(num_classes, verbalizers, template) ← lift (load_fast "num_classes" st.2);
  mret (train, dev, test, num_classes, verbalizers, template).

(** One constructor call with eight positional arguments. *)
Definition make_prompted_classification_reward
    (num_classes : Z) (verbalizers : list string) (template : option string)
    (config : DictConfig.t) : M Reward :=
  let args :=
    [ PyStr (DictConfig.task_lm config);
      of_opt_bool (DictConfig.is_mask_lm config);
      PyBool (DictConfig.compute_zscore config);
      PyFloat (DictConfig.incorrect_coeff config);
      PyFloat (DictConfig.correct_coeff config);
      PyInt num_classes;
      PyList (PyStr <$> verbalizers);
      of_opt_str template ] in
  call (NewReward args) (PromptedClassificationReward args).

End helpers.

(** The names the module binds at top level, in source order: its imports,
    classes and functions (the dunder names every module has are left
    out).  None of them is a dict the module subscripts. *)
Definition module_names : list string :=
  [ "dataclass"; "np"; "pd"; "os"; "Dataset"; "AutoTokenizer";
    "Optional"; "Tuple"; "List"; "PromptedClassificationReward";
    "PromptedClassificationDataset";
    "make_few_shot_classification_dataset";
    "load_few_shot_classification_dataset";
    "get_dataset_verbalizers";
    "FewShotClassificationDatasetConfig";
    "make_prompted_classification_reward";
    "PromptedClassificationRewardConfig" ].

(** The global namespace the module's own text builds.  No function of the
    module assigns a global, so this is the namespace every call sees
    unless a caller binds more names into the module from outside. *)
Definition helpers_globals : gmap string pyobj :=
  list_to_map ((λ name, (name, PyOpaque)) <$> module_names).

(** ** Concrete worlds used to run the functions *)

(** A file system given by the frames [read_csv] parses at each path. *)
Definition read_from (fs : gmap string DataFrame) (path : string) : result DataFrame :=
  match fs !! path with
  | Some df => Ok df
  | None => Raise (FileNotFoundError path)
  end.

(** The module's namespace after a caller has bound [seed_dict] into it,
    with two of the seed directories of the 16-shot layout. *)
Definition seeded_globals : gmap string pyobj :=
  <["seed_dict" := PyDict {[ Some 0 := "16-100"; Some 1 := "16-13" ]}]> helpers_globals.

Definition sentence_frame : DataFrame :=
  {[ "sentence" := [PyStr "good film"; PyStr "dull"];
     "label" := [PyInt 1; PyInt 0] ]}.

Definition text_frame : DataFrame :=
  {[ "text" := [PyStr "stocks fall"];
     "sentence" := [PyStr "unused"];
     "label" := [PyInt 2] ]}.

Definition sample_fs : gmap string DataFrame :=
  {[ "./data/16-shot/agnews/16-100/train.tsv" := sentence_frame;
     "./data/16-shot/agnews/16-100/dev.tsv" := text_frame;
     "./data/16-shot/agnews/16-100/test.tsv" := text_frame ]}.

Definition agnews_config (task_lm : string) : DictConfig.t :=
  {| DictConfig.dataset := "agnews";
     DictConfig.dataset_seed := Some 0;
     DictConfig.base_path := "./data";
     DictConfig.num_shots := 16;
     DictConfig.task_lm := task_lm;
     DictConfig.is_mask_lm := None;
     DictConfig.compute_zscore := true;
     DictConfig.incorrect_coeff := 180%float;
     DictConfig.correct_coeff := 200%float;
     DictConfig.clean_prompt := None;
     DictConfig.target_label := None |}.

(** [s] has [needle] as a substring. *)
Definition contains (needle s : string) : Prop :=
  ∃ pre post, s = pre +:+ needle +:+ post.

(** A computation only ever appends to the log, and what it appends and
    returns does not depend on what was logged before. *)
Definition appends {A} (m : M A) : Prop :=
  ∀ log, m log = ((run m).1, (log ++ (run m).2)%list).

(** The call the loop body of [make_few_shot_classification_dataset]
    makes for one split. *)
Definition load_split (G : gmap string pyobj) (rc : string → result DataFrame)
    (config : DictConfig.t) (split : string)
  : M (list pyval * list pyval * Z * list string * option string) :=
  load_few_shot_classification_dataset G rc
    (DictConfig.dataset config) (DictConfig.dataset_seed config)
    split (DictConfig.base_path config)
    (DictConfig.num_shots config) (DictConfig.task_lm config).

(** Frames that lack a column the loader reads. *)
Definition unlabelled_frame : DataFrame :=
  {[ "sentence" := [PyStr "no label here"] ]}.

Definition textless_frame : DataFrame :=
  {[ "label" := [PyInt 0] ]}.

Definition broken_fs : gmap string DataFrame :=
  {[ "./data/16-shot/agnews/16-100/train.tsv" := sentence_frame;
     "./data/16-shot/agnews/16-100/dev.tsv" := unlabelled_frame;
     "./data/16-shot/agnews/16-100/test.tsv" := textless_frame ]}.

(** The path the loader builds for one split of a config, given the seed
    directory. *)
Definition split_path (config : DictConfig.t) (seed_path split : string) : string :=
  os_path_join (DictConfig.base_path config)
    ("16-shot/" +:+ DictConfig.dataset config +:+ "/" +:+ seed_path
       +:+ "/" +:+ split +:+ ".tsv").

(** A dataset serves the rows of a frame: its length is the number of
    rows, and item [i] pairs row [i] of the text column (the 'text' column
    if the frame has one, else the 'sentence' column) with row [i] of the
    'label' column. *)
Definition serves_rows (df : DataFrame) (ds : PromptedClassificationDataset.t) : Prop :=
  ∃ texts labels,
    (df !! "text" = Some texts ∨ (df !! "text" = None ∧ df !! "sentence" = Some texts)) ∧
    df !! "label" = Some labels ∧
    PromptedClassificationDataset.__len__ ds = Z.of_nat (length texts) ∧
    PromptedClassificationDataset.__len__ ds = Z.of_nat (length labels) ∧
    ∀ i, 0 ≤ i < PromptedClassificationDataset.__len__ ds →
      ∃ text label,
        texts !! Z.to_nat i = Some text ∧
        labels !! Z.to_nat i = Some label ∧
        PromptedClassificationDataset.__getitem__ ds i
        = Ok {[ "source_texts" := text; "class_labels" := label ]}.

(** A file system with one split of 'yelp'. *)
Definition yelp_fs : gmap string DataFrame :=
  {[ "./data/16-shot/yelp/16-13/dev.tsv" := sentence_frame ]}.

(** A config naming a dataset the module does not know, and one asking
    for 32 shots. *)
Definition sst2_config : DictConfig.t :=
  {| DictConfig.dataset := "sst-2";
     DictConfig.dataset_seed := Some 0;
     DictConfig.base_path := "./data";
     DictConfig.num_shots := 16;
     DictConfig.task_lm := "roberta-large";
     DictConfig.is_mask_lm := None;
     DictConfig.compute_zscore := true;
     DictConfig.incorrect_coeff := 180%float;
     DictConfig.correct_coeff := 200%float;
     DictConfig.clean_prompt := None;
     DictConfig.target_label := None |}.

Definition shots32_config : DictConfig.t :=
  {| DictConfig.dataset := "agnews";
     DictConfig.dataset_seed := Some 0;
     DictConfig.base_path := "./data";
     DictConfig.num_shots := 32;
     DictConfig.task_lm := "roberta-large";
     DictConfig.is_mask_lm := None;
     DictConfig.compute_zscore := true;
     DictConfig.incorrect_coeff := 180%float;
     DictConfig.correct_coeff := 200%float;
     DictConfig.clean_prompt := None;
     DictConfig.target_label := None |}.

(** * Properties *)

(** ** Running the code on concrete inputs *)

Example G_terrible_bytes :
  G_terrible = String (ascii_of_nat 196) (String (ascii_of_nat 160) "terrible").
Proof. reflexivity. Qed.

Example U_great_bytes :
  U_great = String (ascii_of_nat 226) (String (ascii_of_nat 150)
              (String (ascii_of_nat 129) "great")).
Proof. reflexivity. Qed.

Example verbalizers_agnews_roberta :
  get_dataset_verbalizers "agnews" "roberta-large" = Ok [G_terrible; G_great].
Proof. reflexivity. Qed.

Example verbalizers_unknown_dataset :
  get_dataset_verbalizers "sst-2" "roberta-large" = Raise (UnboundLocalError "verbalizers").
Proof. reflexivity. Qed.

Example load_module_as_written :
  run (load_few_shot_classification_dataset helpers_globals (read_from sample_fs)
         "agnews" (Some 0) "train" "./data" 16 "roberta-large")
  = (Raise (NameError "seed_dict"), []).
Proof. vm_compute. reflexivity. Qed.

Example load_seeded_train :
  run (load_few_shot_classification_dataset seeded_globals (read_from sample_fs)
         "agnews" (Some 0) "train" "./data" 16 "roberta-large")
  = (Ok ([PyStr "good film"; PyStr "dull"], [PyInt 1; PyInt 0], 2,
         [G_terrible; G_great], Some "<mask> {clean_prompt} {sentence}"),
     [ReadCsv "./data/16-shot/agnews/16-100/train.tsv"]).
Proof. vm_compute. reflexivity. Qed.

Example load_seeded_dev_deberta :
  run (load_few_shot_classification_dataset seeded_globals (read_from sample_fs)
         "agnews" (Some 0) "dev" "./data" 16 "deberta-base")
  = (Ok ([PyStr "stocks fall"], [PyInt 2], 2, [G_terrible; G_great],
         Some "[MASK] {clean_prompt} {sentence}"),
     [ReadCsv "./data/16-shot/agnews/16-100/dev.tsv"]).
Proof. vm_compute. reflexivity. Qed.

Example load_seeded_agnews_gpt :
  run (load_few_shot_classification_dataset seeded_globals (read_from sample_fs)
         "agnews" (Some 0) "test" "./data" 16 "chatgpt")
  = (Ok ([PyStr "stocks fall"], [PyInt 2], 2, [G_terrible; G_great], None),
     [ReadCsv "./data/16-shot/agnews/16-100/test.tsv"]).
Proof. vm_compute. reflexivity. Qed.

Example make_module_as_written :
  run (make_few_shot_classification_dataset helpers_globals (read_from sample_fs)
         (agnews_config "roberta-large"))
  = (Raise (NameError "seed_dict"), []).
Proof. vm_compute. reflexivity. Qed.

Example reward_from_reward_defaults :
  run (make_prompted_classification_reward (list pyval) Ok
         2 [G_terrible; G_great] None (agnews_config "distilroberta-base"))
  = (Ok [PyStr "distilroberta-base"; PyNone; PyBool true;
         PyFloat 180; PyFloat 200; PyInt 2;
         PyList [PyStr G_terrible; PyStr G_great]; PyNone],
     [NewReward [PyStr "distilroberta-base"; PyNone; PyBool true;
                 PyFloat 180; PyFloat 200; PyInt 2;
                 PyList [PyStr G_terrible; PyStr G_great]; PyNone]]).
Proof. reflexivity. Qed.

Example load_seeded_missing_seed :
  run (load_few_shot_classification_dataset seeded_globals (read_from sample_fs)
         "agnews" None "train" "./data" 16 "roberta-large")
  = (Raise KeyError, []).
Proof. vm_compute. reflexivity. Qed.

Example load_seeded_missing_file :
  run (load_few_shot_classification_dataset seeded_globals (read_from sample_fs)
         "yelp" (Some 1) "dev" "/srv/data/" 16 "gpt2")
  = (Raise (FileNotFoundError "/srv/data/16-shot/yelp/16-13/dev.tsv"),
     [ReadCsv "/srv/data/16-shot/yelp/16-13/dev.tsv"]).
Proof. vm_compute. reflexivity. Qed.

Example getitem_last :
  PromptedClassificationDataset.__getitem__
    (PromptedClassificationDataset.mk [PyStr "a"; PyStr "b"] [PyInt 0; PyInt 1]) (-1)
  = Ok {[ "source_texts" := PyStr "b"; "class_labels" := PyInt 1 ]}.
Proof. vm_compute. reflexivity. Qed.

Example getitem_out_of_range :
  PromptedClassificationDataset.__getitem__
    (PromptedClassificationDataset.mk [PyStr "a"; PyStr "b"] [PyInt 0; PyInt 1]) 2
  = Raise IndexError.
Proof. reflexivity. Qed.

(** ** Strings and paths *)

Lemma prefix_app (p s : string) :
  String.prefix p s = true ↔ ∃ post, s = p +:+ post.
Proof.
  revert s. induction p as [|c p IH]; intros s; simpl.
  - split; [intros _; by exists s | intros _; by destruct s].
  - destruct s as [|c' s]; simpl.
    + split; [done | intros [post ?]; discriminate].
    + destruct (Ascii.ascii_dec c c') as [->|Hne].
      * rewrite IH. split.
        -- intros [post ->]. by exists post.
        -- intros [post H]. injection H as ->. by exists post.
      * split; [done | intros [post H]; simpl in H; injection H as ? ?; congruence].
Qed.

Lemma str_in_spec (needle hay : string) :
  str_in needle hay = true ↔ contains needle hay.
Proof.
  unfold contains. induction hay as [|c hay IH]; cbn [str_in].
  - rewrite orb_false_r, prefix_app. split.
    + intros [post ->]. by exists "", post.
    + intros (pre & post & H). destruct pre; simpl in H; [by exists post|discriminate].
  - rewrite orb_true_iff, prefix_app, IH. split.
    + intros [[post ->]|(pre & post & ->)].
      * by exists "", post.
      * by exists (String c pre), post.
    + intros (pre & post & H). destruct pre as [|c' pre]; simpl in H.
      * left. by exists post.
      * right. exists pre, post. by injection H.
Qed.

Lemma str_in_false (needle hay : string) :
  str_in needle hay = false ↔ ¬ contains needle hay.
Proof. rewrite <- str_in_spec. by destruct (str_in needle hay). Qed.

(** The relative path of a 16-shot split never starts with a separator, so
    joining never discards the base path. *)
Lemma os_path_join_filepath base dataset seed_path split :
  os_path_join base (format_filepath 16 dataset seed_path split)
  = if bool_decide (base = "") || ends_with_sep base
    then base +:+ "16-shot/" +:+ dataset +:+ "/" +:+ seed_path +:+ "/" +:+ split +:+ ".tsv"
    else base +:+ "/16-shot/" +:+ dataset +:+ "/" +:+ seed_path +:+ "/" +:+ split +:+ ".tsv".
Proof. reflexivity. Qed.

Lemma elem_of_16 (ns : Z) : ns ∈ [16] ↔ ns = 16.
Proof. by rewrite list_elem_of_singleton. Qed.

Lemma app_singleton_neq {A} (l : list A) (x : A) : (l ++ [x])%list ≠ l.
Proof.
  intros H. apply (f_equal length) in H. rewrite length_app in H. simpl in H. lia.
Qed.

(** ** The effect monad *)

Ltac unfold_M :=
  unfold mbind, M_bind, bind, py_assert, mret, M_ret, ret, raise, lift,
         pd_read_csv, call in *.

Lemma appends_ret {A} (a : A) : appends (mret a).
Proof. by intros log; unfold run; unfold_M; rewrite app_nil_r. Qed.

Lemma appends_raise {A} (e : exn) : appends (@raise A e).
Proof. by intros log; unfold run; unfold_M; rewrite app_nil_r. Qed.

Lemma appends_lift {A} (r : result A) : appends (lift r).
Proof. by intros log; unfold run; unfold_M; rewrite app_nil_r. Qed.

Lemma appends_call {A} (ev : event) (r : result A) : appends (call ev r).
Proof. by intros log. Qed.

Lemma appends_assert (c : bool) : appends (py_assert c).
Proof. destruct c; [apply (appends_ret tt) | apply appends_raise]. Qed.

Lemma appends_if {A} (c : bool) (m1 m2 : M A) :
  appends m1 → appends m2 → appends (if c then m1 else m2).
Proof. by destruct c. Qed.

Lemma appends_bind {A B} (m : M A) (k : A → M B) :
  appends m → (∀ a, appends (k a)) → appends (m ≫= k).
Proof.
  intros Hm Hk log. unfold run, mbind, M_bind, bind.
  rewrite (Hm log). unfold run. destruct (m []) as [[a|e] evs]; simpl.
  - rewrite (Hk a (log ++ evs)%list), (Hk a evs). simpl. by rewrite app_assoc.
  - done.
Qed.

Lemma appends_for_each {A S} (xs : list A) (body : S → A → M S) (s : S) :
  (∀ s x, appends (body s x)) → appends (for_each xs body s).
Proof.
  intros Hbody. revert s. induction xs as [|x xs IH]; intros s; simpl.
  - apply (appends_ret s).
  - apply (appends_bind (body s x)); auto.
Qed.

Create HintDb appends.
#[local] Hint Resolve appends_ret appends_raise appends_lift appends_call
  appends_assert appends_if appends_bind appends_for_each : appends.

(** ** get_dataset_verbalizers *)

(** On the five datasets the result is a two-way table over the model
    name: the later tests overwrite the earlier ones, and no model name
    satisfies two of them. *)
Lemma get_dataset_verbalizers_eq dataset task_lm :
  dataset ∈ datasets →
  get_dataset_verbalizers dataset task_lm =
    Ok (if bool_decide (task_lm = "bert-large-cased") then ["terrible"; "great"]
        else if bool_decide (task_lm ∈ ["llama-2-7b"; "llama-2-13b"])
             then [U_terrible; U_great]
             else [G_terrible; G_great]).
Proof.
  intros Hd. unfold get_dataset_verbalizers.
  rewrite (bool_decide_eq_true_2 _ Hd). simpl.
  repeat case_bool_decide; subst; try done.
  all: exfalso; repeat match goal with
       | H : _ ∈ _ |- _ => apply list_elem_of_In in H; simpl in H
       end; intuition congruence.
Qed.

Lemma get_dataset_verbalizers_length dataset task_lm v :
  get_dataset_verbalizers dataset task_lm = Ok v → length v = 2%nat.
Proof.
  intros H. destruct (decide (dataset ∈ datasets)) as [Hd|Hd].
  - rewrite (get_dataset_verbalizers_eq _ _ Hd) in H. injection H as <-.
    by repeat case_bool_decide.
  - unfold get_dataset_verbalizers in H.
    rewrite (bool_decide_eq_false_2 _ Hd) in H.
    case_bool_decide as Ha; [|done].
    subst. exfalso. apply Hd, list_elem_of_In. simpl. tauto.
Qed.

(** ** load_few_shot_classification_dataset *)

Section load.
Context (G : gmap string pyobj) (rc : string → result DataFrame).

Lemma load_appends dataset seed split base ns lm :
  appends (load_few_shot_classification_dataset G rc dataset seed split base ns lm).
Proof.
  unfold load_few_shot_classification_dataset, pd_read_csv.
  repeat (apply appends_bind; [auto with appends | intros ?]).
  apply (appends_ret (_, _, _, _, _)).
Qed.


(** The three assertions, in source order, guard everything else. *)
Lemma load_rejected dataset seed split base ns lm log :
  ¬ (dataset ∈ datasets ∧ split ∈ ["train"; "dev"; "test"] ∧ ns = 16) →
  load_few_shot_classification_dataset G rc dataset seed split base ns lm log
  = (Raise AssertionError, log).
Proof.
  intros Hno. unfold load_few_shot_classification_dataset. unfold_M.
  case_bool_decide as Hd; [|done].
  case_bool_decide as Hs; [|done].
  case_bool_decide as Hn; [|done].
  apply elem_of_16 in Hn. tauto.
Qed.

(** Past the assertions, the body in one piece. *)
Lemma load_accepted dataset seed split base lm log :
  dataset ∈ datasets → split ∈ ["train"; "dev"; "test"] →
  load_few_shot_classification_dataset G rc dataset seed split base 16 lm log
  = match G !! "seed_dict" with
    | None => (Raise (NameError "seed_dict"), log)
    | Some PyOpaque => (Raise TypeError, log)
    | Some (PyDict d) =>
        match d !! seed with
        | None => (Raise KeyError, log)
        | Some seed_path =>
            let path := os_path_join base (format_filepath 16 dataset seed_path split) in
            let log' := (log ++ [ReadCsv path])%list in
            match rc path with
            | Raise e => (Raise e, log')
            | Ok df =>
                match (if bool_decide ("text" ∈ dom df)
                       then column df "text" else column df "sentence") with
                | Raise e => (Raise e, log')
                | Ok source_texts =>
                    match column df "label" with
                    | Raise e => (Raise e, log')
                    | Ok class_labels =>
                        match get_dataset_verbalizers dataset lm with
                        | Raise e => (Raise e, log')
                        | Ok verbalizers =>
                            (Ok (source_texts, class_labels,
                                 Z.of_nat (length verbalizers), verbalizers,
                                 if bool_decide (dataset = "agnews")
                                    && bool_decide (lm = "deberta-base")
                                 then Some "[MASK] {clean_prompt} {sentence}"
                                 else if bool_decide (dataset = "agnews")
                                         && negb (str_in "gpt" lm)
                                 then Some "<mask> {clean_prompt} {sentence}"
                                 else None), log')
                        end
                    end
                end
            end
        end
    end.
Proof.
  intros Hd Hs. unfold load_few_shot_classification_dataset. unfold_M.
  rewrite (bool_decide_eq_true_2 _ Hd), (bool_decide_eq_true_2 _ Hs).
  rewrite (bool_decide_eq_true_2 (16 ∈ [16])) by (by apply elem_of_16).
  unfold load_global, subscript, dict_getitem.
  destruct (G !! "seed_dict") as [[|d]|]; try done.
  destruct (d !! seed) as [seed_path|]; try done.
  cbv beta zeta. destruct (rc _) as [df|e]; try done.
  by destruct (bool_decide ("text" ∈ dom df)).
Qed.

Lemma load_returns_iff dataset seed split base ns lm log texts labels n v t log' :
  load_few_shot_classification_dataset G rc dataset seed split base ns lm log
    = (Ok (texts, labels, n, v, t), log') ↔
  dataset ∈ datasets ∧ split ∈ ["train"; "dev"; "test"] ∧ ns = 16 ∧
  ∃ d seed_path df,
    G !! "seed_dict" = Some (PyDict d) ∧ d !! seed = Some seed_path ∧
    rc (os_path_join base (format_filepath 16 dataset seed_path split)) = Ok df ∧
    log' = (log ++ [ReadCsv (os_path_join base
                               (format_filepath 16 dataset seed_path split))])%list ∧
    (if bool_decide ("text" ∈ dom df) then df !! "text" else df !! "sentence")
      = Some texts ∧
    df !! "label" = Some labels ∧
    get_dataset_verbalizers dataset lm = Ok v ∧
    n = Z.of_nat (length v) ∧
    t = (if bool_decide (dataset = "agnews") && bool_decide (lm = "deberta-base")
         then Some "[MASK] {clean_prompt} {sentence}"
         else if bool_decide (dataset = "agnews") && negb (str_in "gpt" lm)
         then Some "<mask> {clean_prompt} {sentence}"
         else None).
Proof.
  destruct (decide (dataset ∈ datasets ∧ split ∈ ["train"; "dev"; "test"] ∧ ns = 16))
    as [(Hd & Hs & ->)|Hno];
    [|rewrite load_rejected by done; split; [done|tauto]].
  rewrite load_accepted by done. unfold column. cbv zeta.
  destruct (G !! "seed_dict") as [[|d]|] eqn:HG;
    [split; [done | intros (_&_&_&?&?&?&?&_); congruence] |
    |split; [done | intros (_&_&_&?&?&?&?&_); congruence]].
  destruct (d !! seed) as [sp|] eqn:Hsd;
    [|split; [done | intros (_&_&_&?&?&?&?&?&_); simplify_eq]].
  destruct (rc _) as [df|e] eqn:Hrc;
    [|split; [done | intros (_&_&_&?&?&?&?&?&?&_); simplify_eq; congruence]].
  destruct (bool_decide ("text" ∈ dom df)) eqn:Htext.
  all: destruct (df !! _) as [xs|] eqn:Hxs in |- *.
  all: try destruct (df !! "label") as [ls|] eqn:Hls.
  all: try destruct (get_dataset_verbalizers dataset lm) as [vs|e] eqn:Hvs.
  all: split;
    [ intros ?; simplify_eq;
      try (split_and!; try done; eexists _, _, _; split_and!; try done;
           by rewrite ?Htext)
    | intros (_&_&_&d'&sp'&df'&HG'&Hsd'&Hrc'&->&Htx'&Hlb'&Hv'&->&->);
      simplify_eq; rewrite Hrc in Hrc'; simplify_eq;
      rewrite Htext in Htx'; congruence ].
Qed.

(** With [seed_dict] bound and the file parsed, the loader returns as soon
    as the frame has the columns it reads. *)
Lemma load_returns dataset seed split base lm log d seed_path df texts labels :
  dataset ∈ datasets → split ∈ ["train"; "dev"; "test"] →
  G !! "seed_dict" = Some (PyDict d) → d !! seed = Some seed_path →
  rc (os_path_join base (format_filepath 16 dataset seed_path split)) = Ok df →
  (if bool_decide ("text" ∈ dom df) then df !! "text" else df !! "sentence")
    = Some texts →
  df !! "label" = Some labels →
  ∃ n v t,
    load_few_shot_classification_dataset G rc dataset seed split base 16 lm log
    = (Ok (texts, labels, n, v, t),
       (log ++ [ReadCsv (os_path_join base
                           (format_filepath 16 dataset seed_path split))])%list).
Proof.
  intros Hd Hs HG Hseed Hrc Htexts Hlabels.
  destruct (get_dataset_verbalizers dataset lm) as [v|e] eqn:Hv;
    [|by rewrite (get_dataset_verbalizers_eq _ _ Hd) in Hv].
  eexists _, v, _. apply load_returns_iff.
  split_and!; try done. exists d, seed_path, df. split_and!; done.
Qed.

End load.

(** ** make_few_shot_classification_dataset *)

Section make.
Context (G : gmap string pyobj) (rc : string → result DataFrame).

(** The loop unrolled over its three splits. *)
Lemma make_unrolled config log :
  make_few_shot_classification_dataset G rc config log =
  match load_split G rc config "train" log with
  | (Raise e, l1) => (Raise e, l1)
  | (Ok (x1, y1, n1, v1, t1), l1) =>
    match PromptedClassificationDataset.__init__ x1 y1 with
    | Raise e => (Raise e, l1)
    | Ok d1 =>
      match load_split G rc config "dev" l1 with
      | (Raise e, l2) => (Raise e, l2)
      | (Ok (x2, y2, n2, v2, t2), l2) =>
        match PromptedClassificationDataset.__init__ x2 y2 with
        | Raise e => (Raise e, l2)
        | Ok d2 =>
          match load_split G rc config "test" l2 with
          | (Raise e, l3) => (Raise e, l3)
          | (Ok (x3, y3, n3, v3, t3), l3) =>
            match PromptedClassificationDataset.__init__ x3 y3 with
            | Raise e => (Raise e, l3)
            | Ok d3 => (Ok (d1, d2, d3, n3, v3, t3), l3)
            end
          end
        end
      end
    end
  end.
Proof.
  unfold make_few_shot_classification_dataset, load_split. cbn [for_each].
  unfold_M. cbn [fst snd].
  destruct (load_few_shot_classification_dataset _ _ _ _ "train" _ _ _ _)
    as [[[[[[x1 y1] n1] v1] t1]|e1] l1]; [|done].
  destruct (PromptedClassificationDataset.__init__ x1 y1) as [d1|e1]; [|done].
  destruct (load_few_shot_classification_dataset _ _ _ _ "dev" _ _ _ _)
    as [[[[[[x2 y2] n2] v2] t2]|e2] l2]; [|done].
  destruct (PromptedClassificationDataset.__init__ x2 y2) as [d2|e2]; [|done].
  destruct (load_few_shot_classification_dataset _ _ _ _ "test" _ _ _ _)
    as [[[[[[x3 y3] n3] v3] t3]|e3] l3]; [|done].
  destruct (PromptedClassificationDataset.__init__ x3 y3) as [d3|e3]; [|done].
  unfold dict_getitem, load_fast. cbn [fst snd].
  rewrite lookup_insert_ne, lookup_insert_ne, lookup_insert_eq by done.
  rewrite lookup_insert_ne, lookup_insert_eq by done.
  by rewrite lookup_insert_eq.
Qed.

(** A successful load logs exactly one read, wherever the log stood. *)
Lemma load_split_run config split log r log' :
  load_split G rc config split log = (Ok r, log') ↔
  ∃ path, run (load_split G rc config split) = (Ok r, [ReadCsv path])
          ∧ log' = (log ++ [ReadCsv path])%list.
Proof.
  unfold load_split.
  rewrite (load_appends G rc _ _ _ _ _ _ log).
  destruct (run _) as [res evs] eqn:Hrun. simpl. split.
  - intros [= -> <-]. destruct r as [[[[texts labels] n] v] t].
    apply load_returns_iff in Hrun
      as (_ & _ & _ & d & sp & df & _ & _ & _ & -> & _).
    by eexists.
  - intros (path & [= -> ->] & ->). done.
Qed.

(** What the loader returns besides the two columns is the same for
    every split: it is computed from [dataset] and [task_lm] alone. *)
Lemma load_split_same config split split' log1 log2 x y n v t x' y' n' v' t' log1' log2' :
  load_split G rc config split log1 = (Ok (x, y, n, v, t), log1') →
  load_split G rc config split' log2 = (Ok (x', y', n', v', t'), log2') →
  n = n' ∧ v = v' ∧ t = t'.
Proof.
  unfold load_split. intros H1 H2.
  apply load_returns_iff in H1
    as (_ & _ & _ & ? & ? & ? & _ & _ & _ & _ & _ & _ & Hv & -> & ->).
  apply load_returns_iff in H2
    as (_ & _ & _ & ? & ? & ? & _ & _ & _ & _ & _ & _ & Hv' & -> & ->).
  rewrite Hv in Hv'. by injection Hv' as ->.
Qed.

End make.

(** * The claims *)

Ltac by_computation := apply (bool_decide_unpack _); vm_compute; exact I.

(** C1. For each of the datasets 'CoLA', 'yelp', 'agnews', 'ReCoRD', 'QuAC'
    and every [task_lm], [get_dataset_verbalizers] returns the label tokens
    fixed by the model name alone: ['terrible', 'great'] for
    'bert-large-cased', the U+2581-prefixed pair for 'llama-2-7b' and
    'llama-2-13b', and the U+0120-prefixed pair for every other name,
    'gpt4' and 'gpt3.5' included. *)
Theorem get_dataset_verbalizers_by_model (dataset task_lm : string) :
  dataset ∈ ["CoLA"; "yelp"; "agnews"; "ReCoRD"; "QuAC"] →
  (task_lm = "bert-large-cased" →
   get_dataset_verbalizers dataset task_lm = Ok ["terrible"; "great"]) ∧
  (task_lm = "llama-2-7b" ∨ task_lm = "llama-2-13b" →
   get_dataset_verbalizers dataset task_lm = Ok ["▁terrible"; "▁great"]) ∧
  (task_lm ≠ "bert-large-cased" → task_lm ≠ "llama-2-7b" → task_lm ≠ "llama-2-13b" →
   get_dataset_verbalizers dataset task_lm = Ok ["Ġterrible"; "Ġgreat"]) ∧
  get_dataset_verbalizers dataset "gpt4" = Ok ["Ġterrible"; "Ġgreat"] ∧
  get_dataset_verbalizers dataset "gpt3.5" = Ok ["Ġterrible"; "Ġgreat"].
Proof.
  intros Hd. rewrite !(get_dataset_verbalizers_eq _ _ Hd). split_and!.
  - by intros ->.
  - by intros [-> | ->].
  - intros H1 H2 H3.
    rewrite (bool_decide_eq_false_2 _ H1).
    rewrite bool_decide_eq_false_2; [done|].
    intros H%list_elem_of_In. simpl in H. intuition congruence.
  - done.
  - done.
Qed.

Lemma get_dataset_verbalizers_by_model_witness :
  get_dataset_verbalizers "yelp" "llama-2-13b" = Ok ["▁terrible"; "▁great"]
  ∧ get_dataset_verbalizers "QuAC" "roberta-large" = Ok ["Ġterrible"; "Ġgreat"].
Proof.
  split.
  - apply (get_dataset_verbalizers_by_model "yelp" "llama-2-13b");
      [by_computation | by right].
  - apply (get_dataset_verbalizers_by_model "QuAC" "roberta-large");
      [by_computation | done..].
Defined.

(** C2. The module never binds [seed_dict].  So with the module's own
    namespace every call of [load_few_shot_classification_dataset] that
    passes the three assertions raises [NameError] with nothing read, no
    call of the loader returns, and neither does
    [make_few_shot_classification_dataset]. *)
Theorem load_raises_NameError (read_csv : string → result DataFrame) :
  ("seed_dict" ∉ module_names) ∧
  (∀ dataset dataset_seed split base_path num_shots task_lm log,
     dataset ∈ ["CoLA"; "yelp"; "agnews"; "ReCoRD"; "QuAC"] →
     split ∈ ["train"; "dev"; "test"] →
     num_shots = 16 →
     load_few_shot_classification_dataset helpers_globals read_csv
       dataset dataset_seed split base_path num_shots task_lm log
     = (Raise (NameError "seed_dict"), log)) ∧
  (∀ dataset dataset_seed split base_path num_shots task_lm log,
     ∃ e, load_few_shot_classification_dataset helpers_globals read_csv
            dataset dataset_seed split base_path num_shots task_lm log
          = (Raise e, log)) ∧
  (∀ config log,
     ∃ e, make_few_shot_classification_dataset helpers_globals read_csv config log
          = (Raise e, log)).
Proof.
  assert (helpers_globals !! "seed_dict" = None) as Hunbound
    by (vm_compute; reflexivity).
  assert (∀ dataset dataset_seed split base_path num_shots task_lm log,
     ∃ e, load_few_shot_classification_dataset helpers_globals read_csv
            dataset dataset_seed split base_path num_shots task_lm log
          = (Raise e, log)) as Hnever.
  { intros dataset seed split base ns lm log.
    destruct (decide (dataset ∈ datasets ∧ split ∈ ["train"; "dev"; "test"] ∧ ns = 16))
      as [(Hd & Hs & ->)|Hno].
    - rewrite load_accepted, Hunbound by done. by eexists.
    - rewrite load_rejected by done. by eexists. }
  split_and!.
  - intros H%list_elem_of_In. simpl in H. intuition discriminate.
  - intros dataset seed split base ns lm log Hd Hs ->.
    by rewrite load_accepted, Hunbound.
  - exact Hnever.
  - intros config log. rewrite make_unrolled. unfold load_split.
    destruct (Hnever (DictConfig.dataset config) (DictConfig.dataset_seed config)
                "train" (DictConfig.base_path config) (DictConfig.num_shots config)
                (DictConfig.task_lm config) log) as [e ->].
    by exists e.
Qed.

Lemma load_raises_NameError_witness :
  load_few_shot_classification_dataset helpers_globals (read_from sample_fs)
    "agnews" (Some 0) "train" "./data" 16 "roberta-large" []
  = (Raise (NameError "seed_dict"), []).
Proof.
  apply (load_raises_NameError (read_from sample_fs));
    [by_computation | by_computation | reflexivity].
Defined.

(** C3. On the five datasets, for every [task_lm], the verbalizer list has
    exactly two elements, and whenever
    [load_few_shot_classification_dataset] returns, its [num_classes] is 2.
    The four-class list is returned for no input at all: 'agnews' is one
    of the five datasets the first branch takes. *)
Theorem two_classes (dataset task_lm : string) :
  dataset ∈ ["CoLA"; "yelp"; "agnews"; "ReCoRD"; "QuAC"] →
  (∃ v, get_dataset_verbalizers dataset task_lm = Ok v ∧ length v = 2%nat) ∧
  (∀ G read_csv dataset_seed split base_path num_shots log
     source_texts class_labels num_classes verbalizers template log',
     load_few_shot_classification_dataset G read_csv
       dataset dataset_seed split base_path num_shots task_lm log
     = (Ok (source_texts, class_labels, num_classes, verbalizers, template), log') →
     num_classes = 2 ∧ length verbalizers = 2%nat ∧
     get_dataset_verbalizers dataset task_lm = Ok verbalizers) ∧
  "agnews" ∈ ["CoLA"; "yelp"; "agnews"; "ReCoRD"; "QuAC"] ∧
  (∀ dataset' task_lm',
     get_dataset_verbalizers dataset' task_lm'
     ≠ Ok ["World"; "Sports"; "Business"; "Tech"]).
Proof.
  intros Hd. split_and!.
  - rewrite (get_dataset_verbalizers_eq _ _ Hd). eexists. split; [done|].
    by repeat case_bool_decide.
  - intros G rc seed split base ns log texts labels n v t log' H.
    apply load_returns_iff in H
      as (_ & _ & _ & d & sp & df & _ & _ & _ & _ & _ & _ & Hv & -> & _).
    pose proof (get_dataset_verbalizers_length _ _ _ Hv) as Hlen.
    rewrite Hlen. done.
  - by_computation.
  - intros dataset' lm' H.
    by apply get_dataset_verbalizers_length in H.
Qed.

Lemma two_classes_witness :
  (∃ v, get_dataset_verbalizers "agnews" "roberta-large" = Ok v ∧ length v = 2%nat) ∧
  ∃ source_texts class_labels num_classes verbalizers template log',
    load_few_shot_classification_dataset seeded_globals (read_from sample_fs)
      "agnews" (Some 0) "train" "./data" 16 "roberta-large" []
    = (Ok (source_texts, class_labels, num_classes, verbalizers, template), log')
    ∧ num_classes = 2.
Proof.
  split.
  - apply (two_classes "agnews" "roberta-large"). by_computation.
  - eexists _, _, _, _, _, _. split; [exact load_seeded_train|].
    eapply (two_classes "agnews" "roberta-large");
      [by_computation | exact load_seeded_train].
Defined.

(** C4. The template [load_few_shot_classification_dataset] returns is
    fixed by [dataset] and [task_lm], the cases being tried in the order
    they are listed: "[MASK] {clean_prompt} {sentence}" for 'agnews' with
    'deberta-base'; otherwise "<mask> {clean_prompt} {sentence}" for 'agnews'
    with a model name that has no 'gpt' in it; [None] in every other case,
    that is for every other dataset and for 'agnews' with a model name
    that has 'gpt' in it.  Every return of the loader carries that
    template, and the loader does return it once the split's file is
    parsed into a frame with the columns. *)
Theorem template_by_dataset_and_model
    (G : gmap string pyobj) (read_csv : string → result DataFrame)
    (dataset : string) (dataset_seed : option Z) (split base_path : string)
    (num_shots : Z) (task_lm : string) (log : list event) :
  let outcome :=
    load_few_shot_classification_dataset G read_csv
      dataset dataset_seed split base_path num_shots task_lm log in
  let by_cases (template : option string) :=
    (dataset = "agnews" → task_lm = "deberta-base" →
     template = Some "[MASK] {clean_prompt} {sentence}") ∧
    (dataset = "agnews" → task_lm ≠ "deberta-base" → ¬ contains "gpt" task_lm →
     template = Some "<mask> {clean_prompt} {sentence}") ∧
    (dataset ≠ "agnews" → template = None) ∧
    (task_lm ≠ "deberta-base" → contains "gpt" task_lm → template = None) in
  (∀ source_texts class_labels num_classes verbalizers template log',
     outcome
     = (Ok (source_texts, class_labels, num_classes, verbalizers, template), log') →
     by_cases template) ∧
  (∀ seed_dict seed_path df source_texts class_labels,
     dataset ∈ ["CoLA"; "yelp"; "agnews"; "ReCoRD"; "QuAC"] →
     split ∈ ["train"; "dev"; "test"] →
     num_shots = 16 →
     G !! "seed_dict" = Some (PyDict seed_dict) →
     seed_dict !! dataset_seed = Some seed_path →
     let full_filepath :=
       os_path_join base_path
         ("16-shot/" +:+ dataset +:+ "/" +:+ seed_path +:+ "/" +:+ split +:+ ".tsv") in
     read_csv full_filepath = Ok df →
     (if bool_decide ("text" ∈ dom df) then df !! "text" else df !! "sentence")
       = Some source_texts →
     df !! "label" = Some class_labels →
     ∃ num_classes verbalizers template,
       outcome
       = (Ok (source_texts, class_labels, num_classes, verbalizers, template),
          (log ++ [ReadCsv full_filepath])%list)
       ∧ by_cases template).
Proof.
  intros outcome by_cases.
  assert (∀ texts labels n v template log',
            outcome = (Ok (texts, labels, n, v, template), log') →
            by_cases template) as Hcases.
  { intros texts labels n v template log' H. subst outcome by_cases.
    apply load_returns_iff in H
      as (_ & _ & _ & d & sp & df & _ & _ & _ & _ & _ & _ & _ & _ & ->).
    split_and!.
    - intros -> ->. done.
    - intros -> Hlm Hgpt%str_in_false.
      rewrite (bool_decide_eq_false_2 _ Hlm), Hgpt. done.
    - intros Hd. by rewrite (bool_decide_eq_false_2 _ Hd).
    - intros Hlm Hgpt%str_in_spec.
      rewrite (bool_decide_eq_false_2 _ Hlm), Hgpt.
      by rewrite !andb_false_r. }
  split; [exact Hcases|].
  intros d sp df texts labels Hd Hs Hn HG Hseed full_filepath Hread Htexts Hlabels.
  subst num_shots.
  destruct (load_returns G read_csv dataset dataset_seed split base_path task_lm
              log d sp df texts labels Hd Hs HG Hseed Hread Htexts Hlabels)
    as (n & v & t & Hrun).
  exists n, v, t. split; [exact Hrun|]. by eapply Hcases.
Qed.

Lemma template_by_dataset_and_model_witness :
  (∃ num_classes verbalizers,
     load_few_shot_classification_dataset seeded_globals (read_from sample_fs)
       "agnews" (Some 0) "dev" "./data" 16 "deberta-base" []
     = (Ok ([PyStr "stocks fall"], [PyInt 2], num_classes, verbalizers,
            Some "[MASK] {clean_prompt} {sentence}"),
        [ReadCsv "./data/16-shot/agnews/16-100/dev.tsv"]))
  ∧ (∃ num_classes verbalizers,
     load_few_shot_classification_dataset seeded_globals (read_from sample_fs)
       "agnews" (Some 0) "dev" "./data" 16 "roberta-large" []
     = (Ok ([PyStr "stocks fall"], [PyInt 2], num_classes, verbalizers,
            Some "<mask> {clean_prompt} {sentence}"),
        [ReadCsv "./data/16-shot/agnews/16-100/dev.tsv"]))
  ∧ (∃ num_classes verbalizers,
     load_few_shot_classification_dataset seeded_globals (read_from sample_fs)
       "agnews" (Some 0) "dev" "./data" 16 "chatgpt" []
     = (Ok ([PyStr "stocks fall"], [PyInt 2], num_classes, verbalizers, None),
        [ReadCsv "./data/16-shot/agnews/16-100/dev.tsv"]))
  ∧ (∃ num_classes verbalizers,
     load_few_shot_classification_dataset seeded_globals (read_from yelp_fs)
       "yelp" (Some 1) "dev" "./data" 16 "deberta-base" []
     = (Ok ([PyStr "good film"; PyStr "dull"], [PyInt 1; PyInt 0],
            num_classes, verbalizers, None),
        [ReadCsv "./data/16-shot/yelp/16-13/dev.tsv"])).
Proof.
  split_and!.
  - destruct (template_by_dataset_and_model seeded_globals (read_from sample_fs)
                "agnews" (Some 0) "dev" "./data" 16 "deberta-base" []) as [_ Hret].
    destruct (Hret {[ Some 0 := "16-100"; Some 1 := "16-13" ]} "16-100" text_frame
                [PyStr "stocks fall"] [PyInt 2])
      as (n & v & t & Hrun & Hmask & _);
      [by_computation | by_computation | reflexivity
      | vm_compute; reflexivity | vm_compute; reflexivity | vm_compute; reflexivity
      | vm_compute; reflexivity | vm_compute; reflexivity |].
    exists n, v. rewrite Hrun, (Hmask eq_refl eq_refl). reflexivity.
  - destruct (template_by_dataset_and_model seeded_globals (read_from sample_fs)
                "agnews" (Some 0) "dev" "./data" 16 "roberta-large" []) as [_ Hret].
    destruct (Hret {[ Some 0 := "16-100"; Some 1 := "16-13" ]} "16-100" text_frame
                [PyStr "stocks fall"] [PyInt 2])
      as (n & v & t & Hrun & _ & Hmask & _);
      [by_computation | by_computation | reflexivity
      | vm_compute; reflexivity | vm_compute; reflexivity | vm_compute; reflexivity
      | vm_compute; reflexivity | vm_compute; reflexivity |].
    exists n, v. rewrite Hrun, Hmask; [reflexivity | reflexivity | discriminate |].
    apply str_in_false. reflexivity.
  - destruct (template_by_dataset_and_model seeded_globals (read_from sample_fs)
                "agnews" (Some 0) "dev" "./data" 16 "chatgpt" []) as [_ Hret].
    destruct (Hret {[ Some 0 := "16-100"; Some 1 := "16-13" ]} "16-100" text_frame
                [PyStr "stocks fall"] [PyInt 2])
      as (n & v & t & Hrun & _ & _ & _ & Hgpt);
      [by_computation | by_computation | reflexivity
      | vm_compute; reflexivity | vm_compute; reflexivity | vm_compute; reflexivity
      | vm_compute; reflexivity | vm_compute; reflexivity |].
    exists n, v. rewrite Hrun, Hgpt; [reflexivity | discriminate |].
    by exists "chat", "".
  - destruct (template_by_dataset_and_model seeded_globals (read_from yelp_fs)
                "yelp" (Some 1) "dev" "./data" 16 "deberta-base" []) as [_ Hret].
    destruct (Hret {[ Some 0 := "16-100"; Some 1 := "16-13" ]} "16-13" sentence_frame
                [PyStr "good film"; PyStr "dull"] [PyInt 1; PyInt 0])
      as (n & v & t & Hrun & _ & _ & Hother & _);
      [by_computation | by_computation | reflexivity
      | vm_compute; reflexivity | vm_compute; reflexivity | vm_compute; reflexivity
      | vm_compute; reflexivity | vm_compute; reflexivity |].
    exists n, v. rewrite Hrun, Hother; [reflexivity | discriminate].
Defined.

(** C5. [load_few_shot_classification_dataset] raises [AssertionError]
    with nothing read exactly when [dataset] is not one of 'CoLA', 'yelp',
    'agnews', 'ReCoRD', 'QuAC', or [split] is not one of 'train', 'dev',
    'test', or [num_shots] is not 16. *)
Theorem load_assertions
    (G : gmap string pyobj) (read_csv : string → result DataFrame)
    (dataset : string) (dataset_seed : option Z) (split base_path : string)
    (num_shots : Z) (task_lm : string) (log : list event) :
  (dataset ∉ ["CoLA"; "yelp"; "agnews"; "ReCoRD"; "QuAC"]
   ∨ split ∉ ["train"; "dev"; "test"]
   ∨ num_shots ≠ 16)
  ↔ load_few_shot_classification_dataset G read_csv
      dataset dataset_seed split base_path num_shots task_lm log
    = (Raise AssertionError, log).
Proof.
  split.
  - intros H. apply load_rejected. tauto.
  - intros H.
    destruct (decide (dataset ∈ datasets)) as [Hd|Hd]; [|by left].
    destruct (decide (split ∈ ["train"; "dev"; "test"])) as [Hs|Hs]; [|by right; left].
    destruct (decide (num_shots = 16)) as [->|Hn]; [|by right; right].
    exfalso. rewrite load_accepted in H by done. cbv zeta in H.
    repeat case_match; simplify_eq;
      match goal with H : _ = log |- _ => by apply app_singleton_neq in H end.
Qed.

Lemma load_assertions_witness :
  load_few_shot_classification_dataset seeded_globals (read_from sample_fs)
    "sst-2" (Some 0) "train" "./data" 16 "roberta-large" []
  = (Raise AssertionError, [])
  ∧ load_few_shot_classification_dataset seeded_globals (read_from sample_fs)
      "agnews" (Some 0) "train" "./data" 32 "roberta-large" []
    = (Raise AssertionError, []).
Proof.
  split.
  - apply load_assertions. left. by_computation.
  - apply load_assertions. right; right. done.
Defined.

(** C6. The only file the loader ever reads is [base_path] joined with
    '{num_shots}-shot/{dataset}/{seed_path}/{split}.tsv', [seed_path] being
    the entry of [seed_dict] at [dataset_seed]; for every accepted input
    whose seed has such an entry that file is read, once.  Nothing in the
    frame is checked beyond the presence of the columns: whatever their
    values are, they are returned. *)
Theorem load_reads_fixed_path
    (G : gmap string pyobj) (read_csv : string → result DataFrame)
    (dataset : string) (dataset_seed : option Z) (split base_path : string)
    (num_shots : Z) (task_lm : string) (log : list event) :
  let filepath (seed_path : string) :=
    pretty num_shots +:+ "-shot/" +:+ dataset +:+ "/" +:+ seed_path
      +:+ "/" +:+ split +:+ ".tsv" in
  let outcome :=
    load_few_shot_classification_dataset G read_csv
      dataset dataset_seed split base_path num_shots task_lm log in
  (outcome.2 = log ∨
   ∃ seed_dict seed_path,
     G !! "seed_dict" = Some (PyDict seed_dict) ∧
     seed_dict !! dataset_seed = Some seed_path ∧
     outcome.2 = (log ++ [ReadCsv (os_path_join base_path (filepath seed_path))])%list) ∧
  (∀ seed_dict seed_path,
     dataset ∈ ["CoLA"; "yelp"; "agnews"; "ReCoRD"; "QuAC"] →
     split ∈ ["train"; "dev"; "test"] →
     num_shots = 16 →
     G !! "seed_dict" = Some (PyDict seed_dict) →
     seed_dict !! dataset_seed = Some seed_path →
     let full_filepath := os_path_join base_path (filepath seed_path) in
     outcome.2 = (log ++ [ReadCsv full_filepath])%list ∧
     full_filepath = (if bool_decide (base_path = "") || ends_with_sep base_path
                      then base_path +:+ filepath seed_path
                      else base_path +:+ "/" +:+ filepath seed_path) ∧
     ∀ df source_texts class_labels,
       read_csv full_filepath = Ok df →
       (if bool_decide ("text" ∈ dom df) then df !! "text" else df !! "sentence")
         = Some source_texts →
       df !! "label" = Some class_labels →
       ∃ num_classes verbalizers template,
         outcome = (Ok (source_texts, class_labels, num_classes, verbalizers, template),
                    (log ++ [ReadCsv full_filepath])%list)).
Proof.
  intros filepath outcome.
  assert (∀ d sp, dataset ∈ datasets → split ∈ ["train"; "dev"; "test"] →
            num_shots = 16 →
            G !! "seed_dict" = Some (PyDict d) → d !! dataset_seed = Some sp →
            os_path_join base_path (filepath sp)
            = os_path_join base_path (format_filepath 16 dataset sp split)
            ∧ outcome.2 = (log ++ [ReadCsv (os_path_join base_path (filepath sp))])%list)
    as Hread.
  { intros d sp Hd Hs Hn HG Hseed. subst outcome filepath. subst num_shots.
    split; [done|].
    rewrite load_accepted, HG, Hseed by done. cbv zeta.
    by repeat case_match. }
  split.
  - destruct (decide (dataset ∈ datasets ∧ split ∈ ["train"; "dev"; "test"]
                      ∧ num_shots = 16)) as [(Hd & Hs & Hn)|Hno];
      [|left; subst outcome; by rewrite load_rejected].
    destruct (G !! "seed_dict") as [[|d]|] eqn:HG;
      [left; subst outcome num_shots; by rewrite load_accepted, HG | |
       left; subst outcome num_shots; by rewrite load_accepted, HG].
    destruct (d !! dataset_seed) as [sp|] eqn:Hseed;
      [|left; subst outcome num_shots; by rewrite load_accepted, HG, Hseed].
    right. exists d, sp. split_and!; try done. by apply (Hread d sp).
  - intros d sp Hd Hs Hn HG Hseed full_filepath.
    destruct (Hread d sp Hd Hs Hn HG Hseed) as [Hpath Hlog].
    split_and!.
    + exact Hlog.
    + subst full_filepath filepath. by subst num_shots.
    + intros df texts labels Hrc Htexts Hlabels.
      subst outcome full_filepath. rewrite Hpath in *. subst num_shots.
      by eapply load_returns.
Qed.

Lemma load_reads_fixed_path_witness :
  (load_few_shot_classification_dataset seeded_globals (read_from sample_fs)
     "yelp" (Some 1) "test" "/srv/data/" 16 "gpt2" []).2
  = [ReadCsv "/srv/data/16-shot/yelp/16-13/test.tsv"].
Proof.
  destruct (load_reads_fixed_path seeded_globals (read_from sample_fs)
              "yelp" (Some 1) "test" "/srv/data/" 16 "gpt2" []) as [_ Hread].
  apply (Hread {[ Some 0 := "16-100"; Some 1 := "16-13" ]} "16-13");
    [by_computation | by_computation | reflexivity
    | vm_compute; reflexivity | vm_compute; reflexivity].
Defined.

(** C7. Once the TSV is read into a frame: if the frame has a 'text'
    column, [source_texts] is that column; otherwise [source_texts] is the
    'sentence' column; [class_labels] is the 'label' column in both
    cases; every list keeps the order of the file. *)
Theorem load_columns
    (G : gmap string pyobj) (read_csv : string → result DataFrame)
    (seed_dict : gmap (option Z) string) (seed_path : string) (df : DataFrame)
    (dataset : string) (dataset_seed : option Z) (split base_path : string)
    (num_shots : Z) (task_lm : string) (log : list event) :
  dataset ∈ ["CoLA"; "yelp"; "agnews"; "ReCoRD"; "QuAC"] →
  split ∈ ["train"; "dev"; "test"] →
  num_shots = 16 →
  G !! "seed_dict" = Some (PyDict seed_dict) →
  seed_dict !! dataset_seed = Some seed_path →
  read_csv (os_path_join base_path
              ("16-shot/" +:+ dataset +:+ "/" +:+ seed_path +:+ "/" +:+ split +:+ ".tsv"))
    = Ok df →
  let outcome :=
    load_few_shot_classification_dataset G read_csv
      dataset dataset_seed split base_path num_shots task_lm log in
  (∀ text label,
     df !! "text" = Some text → df !! "label" = Some label →
     ∃ num_classes verbalizers template log',
       outcome = (Ok (text, label, num_classes, verbalizers, template), log')) ∧
  (∀ sentence label,
     df !! "text" = None → df !! "sentence" = Some sentence →
     df !! "label" = Some label →
     ∃ num_classes verbalizers template log',
       outcome = (Ok (sentence, label, num_classes, verbalizers, template), log')) ∧
  (∀ source_texts class_labels num_classes verbalizers template log',
     outcome = (Ok (source_texts, class_labels, num_classes, verbalizers, template), log') →
     df !! "label" = Some class_labels ∧
     (df !! "text" = Some source_texts
      ∨ (df !! "text" = None ∧ df !! "sentence" = Some source_texts))).
Proof.
  intros Hd Hs -> HG Hseed Hrc outcome.
  change (read_csv (os_path_join base_path
                      (format_filepath 16 dataset seed_path split)) = Ok df) in Hrc.
  assert (∀ texts labels,
            (if bool_decide ("text" ∈ dom df) then df !! "text" else df !! "sentence")
              = Some texts →
            df !! "label" = Some labels →
            ∃ n v t log', outcome = (Ok (texts, labels, n, v, t), log')) as Hret.
  { intros texts labels Htexts Hlabels.
    destruct (load_returns G read_csv dataset dataset_seed split base_path task_lm
                log seed_dict seed_path df texts labels Hd Hs HG Hseed Hrc
                Htexts Hlabels) as (n & v & t & Hout).
    by eexists n, v, t, _. }
  split_and!.
  - intros text label Htext Hlabel. apply Hret; [|done].
    rewrite bool_decide_eq_true_2; [done|]. apply elem_of_dom. by eexists.
  - intros sentence label Htext Hsentence Hlabel. apply Hret; [|done].
    rewrite bool_decide_eq_false_2; [done|].
    by apply not_elem_of_dom.
  - intros texts labels n v t log' Hout. subst outcome.
    apply load_returns_iff in Hout
      as (_ & _ & _ & d' & sp' & df' & HG' & Hseed' & Hrc' & _ & Htexts & Hlabels & _).
    simplify_eq. rewrite Hrc in Hrc'. simplify_eq. split; [done|].
    case_bool_decide as Hdom; [by left|right].
    split; [|done]. by apply not_elem_of_dom.
Qed.

Lemma load_columns_witness :
  (∃ num_classes verbalizers template log',
     load_few_shot_classification_dataset seeded_globals (read_from sample_fs)
       "agnews" (Some 0) "dev" "./data" 16 "roberta-large" []
     = (Ok ([PyStr "stocks fall"], [PyInt 2], num_classes, verbalizers, template), log'))
  ∧ (∃ num_classes verbalizers template log',
     load_few_shot_classification_dataset seeded_globals (read_from sample_fs)
       "agnews" (Some 0) "train" "./data" 16 "roberta-large" []
     = (Ok ([PyStr "good film"; PyStr "dull"], [PyInt 1; PyInt 0],
            num_classes, verbalizers, template), log')).
Proof.
  split.
  - assert ("agnews" ∈ ["CoLA"; "yelp"; "agnews"; "ReCoRD"; "QuAC"]) as Hd
      by by_computation.
    assert ("dev" ∈ ["train"; "dev"; "test"]) as Hs by by_computation.
    assert (seeded_globals !! "seed_dict"
            = Some (PyDict {[ Some 0 := "16-100"; Some 1 := "16-13" ]})) as HG
      by (vm_compute; reflexivity).
    assert (({[ Some 0 := "16-100"; Some 1 := "16-13" ]} : gmap (option Z) string)
              !! Some 0 = Some "16-100") as Hseed by (vm_compute; reflexivity).
    assert (read_from sample_fs
              (os_path_join "./data"
                 ("16-shot/" +:+ "agnews" +:+ "/" +:+ "16-100" +:+ "/" +:+ "dev" +:+ ".tsv"))
            = Ok text_frame) as Hrc by (vm_compute; reflexivity).
    destruct (load_columns seeded_globals (read_from sample_fs) _ "16-100" text_frame
                "agnews" (Some 0) "dev" "./data" 16 "roberta-large" []
                Hd Hs eq_refl HG Hseed Hrc) as (Htext & _ & _).
    apply Htext; vm_compute; reflexivity.
  - assert ("agnews" ∈ ["CoLA"; "yelp"; "agnews"; "ReCoRD"; "QuAC"]) as Hd
      by by_computation.
    assert ("train" ∈ ["train"; "dev"; "test"]) as Hs by by_computation.
    assert (seeded_globals !! "seed_dict"
            = Some (PyDict {[ Some 0 := "16-100"; Some 1 := "16-13" ]})) as HG
      by (vm_compute; reflexivity).
    assert (({[ Some 0 := "16-100"; Some 1 := "16-13" ]} : gmap (option Z) string)
              !! Some 0 = Some "16-100") as Hseed by (vm_compute; reflexivity).
    assert (read_from sample_fs
              (os_path_join "./data"
                 ("16-shot/" +:+ "agnews" +:+ "/" +:+ "16-100" +:+ "/" +:+ "train" +:+ ".tsv"))
            = Ok sentence_frame) as Hrc by (vm_compute; reflexivity).
    destruct (load_columns seeded_globals (read_from sample_fs) _ "16-100" sentence_frame
                "agnews" (Some 0) "train" "./data" 16 "roberta-large" []
                Hd Hs eq_refl HG Hseed Hrc) as (_ & Hsentence & _).
    apply Hsentence; vm_compute; reflexivity.
Defined.

(** C8. [make_few_shot_classification_dataset] loads 'train', 'dev' and
    'test' in that order and returns the three datasets built from them,
    followed by [num_classes], [verbalizers] and [template].  These three
    are the ones the 'test' iteration assigned, and every split's load
    returned the same three: they are fixed by [config.dataset] and
    [config.task_lm]. *)
Theorem make_few_shot_classification_dataset_spec
    (G : gmap string pyobj) (read_csv : string → result DataFrame)
    (config : DictConfig.t) (log : list event)
    train dev test num_classes verbalizers template log' :
  make_few_shot_classification_dataset G read_csv config log
  = (Ok (train, dev, test, num_classes, verbalizers, template), log') ↔
  ∃ texts1 labels1 texts2 labels2 texts3 labels3 path1 path2 path3,
    run (load_split G read_csv config "train")
    = (Ok (texts1, labels1, num_classes, verbalizers, template), [ReadCsv path1]) ∧
    run (load_split G read_csv config "dev")
    = (Ok (texts2, labels2, num_classes, verbalizers, template), [ReadCsv path2]) ∧
    run (load_split G read_csv config "test")
    = (Ok (texts3, labels3, num_classes, verbalizers, template), [ReadCsv path3]) ∧
    PromptedClassificationDataset.__init__ texts1 labels1 = Ok train ∧
    PromptedClassificationDataset.__init__ texts2 labels2 = Ok dev ∧
    PromptedClassificationDataset.__init__ texts3 labels3 = Ok test ∧
    log' = (log ++ [ReadCsv path1; ReadCsv path2; ReadCsv path3])%list ∧
    get_dataset_verbalizers (DictConfig.dataset config) (DictConfig.task_lm config)
    = Ok verbalizers.
Proof.
  rewrite make_unrolled. split.
  - destruct (load_split G read_csv config "train" log)
      as [[[[[[x1 y1] n1] v1] t1]|e1] l1] eqn:E1; [|done].
    destruct (PromptedClassificationDataset.__init__ x1 y1) as [d1|?] eqn:I1; [|done].
    destruct (load_split G read_csv config "dev" l1)
      as [[[[[[x2 y2] n2] v2] t2]|e2] l2] eqn:E2; [|done].
    destruct (PromptedClassificationDataset.__init__ x2 y2) as [d2|?] eqn:I2; [|done].
    destruct (load_split G read_csv config "test" l2)
      as [[[[[[x3 y3] n3] v3] t3]|e3] l3] eqn:E3; [|done].
    destruct (PromptedClassificationDataset.__init__ x3 y3) as [d3|?] eqn:I3; [|done].
    intros [= -> -> -> -> -> -> ->].
    destruct (load_split_same G read_csv config _ _ _ _ _ _ _ _ _ _ _ _ _ _ _ _ E1 E3)
      as (-> & -> & ->).
    destruct (load_split_same G read_csv config _ _ _ _ _ _ _ _ _ _ _ _ _ _ _ _ E2 E3)
      as (-> & -> & ->).
    pose proof E3 as Hv. unfold load_split in Hv.
    apply load_returns_iff in Hv as (_ & _ & _ & ? & ? & ? & _ & _ & _ & _ & _ & _ & Hv & _).
    apply load_split_run in E1 as (p1 & R1 & ->).
    apply load_split_run in E2 as (p2 & R2 & ->).
    apply load_split_run in E3 as (p3 & R3 & ->).
    exists x1, y1, x2, y2, x3, y3, p1, p2, p3.
    split_and!; try done. by rewrite <- !app_assoc.
  - intros (x1 & y1 & x2 & y2 & x3 & y3 & p1 & p2 & p3
            & R1 & R2 & R3 & I1 & I2 & I3 & -> & _).
    assert (load_split G read_csv config "train" log
            = (Ok (x1, y1, num_classes, verbalizers, template),
               (log ++ [ReadCsv p1])%list)) as ->
      by (apply load_split_run; eauto).
    rewrite I1.
    assert (load_split G read_csv config "dev" (log ++ [ReadCsv p1])%list
            = (Ok (x2, y2, num_classes, verbalizers, template),
               ((log ++ [ReadCsv p1]) ++ [ReadCsv p2])%list)) as ->
      by (apply load_split_run; eauto).
    rewrite I2.
    assert (load_split G read_csv config "test" ((log ++ [ReadCsv p1]) ++ [ReadCsv p2])%list
            = (Ok (x3, y3, num_classes, verbalizers, template),
               (((log ++ [ReadCsv p1]) ++ [ReadCsv p2]) ++ [ReadCsv p3])%list)) as ->
      by (apply load_split_run; eauto).
    rewrite I3. by rewrite <- !app_assoc.
Qed.

Lemma make_few_shot_classification_dataset_spec_witness :
  make_few_shot_classification_dataset seeded_globals (read_from sample_fs)
    (agnews_config "chatgpt") []
  = (Ok (PromptedClassificationDataset.mk
           [PyStr "good film"; PyStr "dull"] [PyInt 1; PyInt 0],
         PromptedClassificationDataset.mk [PyStr "stocks fall"] [PyInt 2],
         PromptedClassificationDataset.mk [PyStr "stocks fall"] [PyInt 2],
         2, ["Ġterrible"; "Ġgreat"], None),
     [ReadCsv "./data/16-shot/agnews/16-100/train.tsv";
      ReadCsv "./data/16-shot/agnews/16-100/dev.tsv";
      ReadCsv "./data/16-shot/agnews/16-100/test.tsv"]).
Proof.
  apply make_few_shot_classification_dataset_spec.
  exists [PyStr "good film"; PyStr "dull"], [PyInt 1; PyInt 0],
         [PyStr "stocks fall"], [PyInt 2], [PyStr "stocks fall"], [PyInt 2],
         "./data/16-shot/agnews/16-100/train.tsv",
         "./data/16-shot/agnews/16-100/dev.tsv",
         "./data/16-shot/agnews/16-100/test.tsv".
  split_and!; vm_compute; reflexivity.
Defined.

(** C9. [make_prompted_classification_reward] makes one call, to the
    constructor of [PromptedClassificationReward], with eight positional
    arguments: [config.task_lm], [config.is_mask_lm],
    [config.compute_zscore], [config.incorrect_coeff],
    [config.correct_coeff], then [num_classes], [verbalizers] and
    [template]; what the constructor answers is what the function
    answers. *)
Theorem make_prompted_classification_reward_call
    (Reward : Type) (PromptedClassificationReward : list pyval → result Reward)
    (num_classes : Z) (verbalizers : list string) (template : option string)
    (config : DictConfig.t) (log : list event) :
  let args :=
    [ PyStr (DictConfig.task_lm config);
      of_opt_bool (DictConfig.is_mask_lm config);
      PyBool (DictConfig.compute_zscore config);
      PyFloat (DictConfig.incorrect_coeff config);
      PyFloat (DictConfig.correct_coeff config);
      PyInt num_classes;
      PyList (PyStr <$> verbalizers);
      of_opt_str template ] in
  make_prompted_classification_reward Reward PromptedClassificationReward
    num_classes verbalizers template config log
  = (PromptedClassificationReward args, (log ++ [NewReward args])%list)
  ∧ length args = 8%nat.
Proof. done. Qed.

(** C10. A [PromptedClassificationDataset] is built exactly when the two
    lists have the same length, the constructor raising [AssertionError]
    otherwise; on the built object [__len__] is that common length and,
    for every index [i] in range, [__getitem__ i] is the dict pairing the
    [i]-th text with the [i]-th label. *)
Theorem dataset_alignment (source_texts class_labels : list pyval) :
  (length source_texts ≠ length class_labels →
   PromptedClassificationDataset.__init__ source_texts class_labels
   = Raise AssertionError) ∧
  (length source_texts = length class_labels →
   ∃ self,
     PromptedClassificationDataset.__init__ source_texts class_labels = Ok self ∧
     PromptedClassificationDataset.source_texts self = source_texts ∧
     PromptedClassificationDataset.class_labels self = class_labels ∧
     PromptedClassificationDataset.__len__ self = Z.of_nat (length source_texts) ∧
     PromptedClassificationDataset.__len__ self = Z.of_nat (length class_labels) ∧
     ∀ i, 0 ≤ i < PromptedClassificationDataset.__len__ self →
       ∃ text label,
         source_texts !! Z.to_nat i = Some text ∧
         class_labels !! Z.to_nat i = Some label ∧
         PromptedClassificationDataset.__getitem__ self i
         = Ok {[ "source_texts" := text; "class_labels" := label ]}).
Proof.
  unfold PromptedClassificationDataset.__init__. split.
  - intros Hne. by rewrite (bool_decide_eq_false_2 _ Hne).
  - intros Heq. rewrite (bool_decide_eq_true_2 _ Heq).
    eexists. split; [done|].
    unfold PromptedClassificationDataset.__len__,
           PromptedClassificationDataset.__getitem__. cbn [PromptedClassificationDataset.source_texts PromptedClassificationDataset.class_labels].
    split_and!; try done; [by rewrite Heq|].
    intros i Hi.
    assert (∀ (l : list pyval), Z.of_nat (length l) = Z.of_nat (length source_texts) →
              ∃ x, l !! Z.to_nat i = Some x ∧ list_getitem l i = Ok x) as Hget.
    { intros l Hl. unfold list_getitem.
      destruct (i <? 0) eqn:Hneg; [lia|].
      destruct ((i <? 0) || (Z.of_nat (length l) <=? i)) eqn:Hout; [lia|].
      destruct (l !! Z.to_nat i) as [x|] eqn:Hx; [by exists x|].
      apply lookup_ge_None in Hx. lia. }
    destruct (Hget source_texts eq_refl) as (text & Htext & ->).
    destruct (Hget class_labels) as (label & Hlabel & ->); [by rewrite Heq|].
    by exists text, label.
Qed.

Lemma dataset_alignment_witness :
  PromptedClassificationDataset.__init__ [PyStr "a"] [PyInt 0; PyInt 1]
  = Raise AssertionError
  ∧ ∃ self,
      PromptedClassificationDataset.__init__ [PyStr "a"; PyStr "b"] [PyInt 0; PyInt 1]
      = Ok self
      ∧ PromptedClassificationDataset.__len__ self = 2
      ∧ PromptedClassificationDataset.__getitem__ self 1
        = Ok {[ "source_texts" := PyStr "b"; "class_labels" := PyInt 1 ]}.
Proof.
  split.
  - apply (dataset_alignment [PyStr "a"] [PyInt 0; PyInt 1]). simpl. lia.
  - destruct (dataset_alignment [PyStr "a"; PyStr "b"] [PyInt 0; PyInt 1])
      as (_ & Hbuilt).
    destruct (Hbuilt eq_refl) as (self & Hinit & _ & _ & Hlen & _ & Hitem).
    exists self. split_and!; [done | done |].
    destruct (Hitem 1) as (text & label & Htext & Hlabel & ->);
      [rewrite Hlen; simpl; lia|].
    simpl in Htext, Hlabel. by simplify_eq.
Defined.

(** * Further properties of the code *)

(** ** get_dataset_verbalizers outside the five datasets *)

(** X1. For a dataset outside the five, no branch assigns [verbalizers]:
    the second test, [dataset == 'agnews'], cannot hold once the first has
    failed, so the [return] raises [UnboundLocalError], whatever the
    model. *)
Theorem get_dataset_verbalizers_unknown_dataset (dataset task_lm : string) :
  dataset ∉ ["CoLA"; "yelp"; "agnews"; "ReCoRD"; "QuAC"] →
  get_dataset_verbalizers dataset task_lm = Raise (UnboundLocalError "verbalizers").
Proof.
  intros Hd. unfold get_dataset_verbalizers.
  rewrite (bool_decide_eq_false_2 _ Hd).
  case_bool_decide as Ha; [|done].
  exfalso. apply Hd. subst. by_computation.
Qed.

Lemma get_dataset_verbalizers_unknown_dataset_witness :
  get_dataset_verbalizers "sst-2" "bert-large-cased"
  = Raise (UnboundLocalError "verbalizers").
Proof.
  apply get_dataset_verbalizers_unknown_dataset. by_computation.
Defined.

(** ** Indexing a PromptedClassificationDataset *)

(** Python's list indexing, by range of the index. *)
Lemma list_getitem_in_range {A} (l : list A) (idx : Z) :
  0 ≤ idx < Z.of_nat (length l) →
  ∃ x, l !! Z.to_nat idx = Some x ∧ list_getitem l idx = Ok x.
Proof.
  intros Hi. unfold list_getitem.
  destruct (idx <? 0) eqn:Hneg; [lia|].
  destruct ((idx <? 0) || (Z.of_nat (length l) <=? idx)) eqn:Hout; [lia|].
  destruct (l !! Z.to_nat idx) as [x|] eqn:Hx; [by exists x|].
  apply lookup_ge_None in Hx. lia.
Qed.

Lemma list_getitem_negative {A} (l : list A) (idx : Z) :
  - Z.of_nat (length l) ≤ idx < 0 →
  list_getitem l idx = list_getitem l (idx + Z.of_nat (length l)).
Proof.
  intros Hi. unfold list_getitem. cbv zeta.
  assert ((idx <? 0) = true) as -> by lia.
  assert ((idx + Z.of_nat (length l) <? 0) = false) as Hin by lia.
  cbv iota. rewrite !Hin. cbv iota. by rewrite ?Hin.
Qed.

Lemma list_getitem_out_of_range {A} (l : list A) (idx : Z) :
  idx < - Z.of_nat (length l) ∨ Z.of_nat (length l) ≤ idx →
  list_getitem l idx = Raise IndexError.
Proof.
  intros Hi. unfold list_getitem.
  destruct (idx <? 0) eqn:Hneg.
  - destruct ((idx + Z.of_nat (length l) <? 0)
              || (Z.of_nat (length l) <=? idx + Z.of_nat (length l))) eqn:Hout;
      [done|lia].
  - destruct ((idx <? 0) || (Z.of_nat (length l) <=? idx)) eqn:Hout; [done|lia].
Qed.

(** X2. On a dataset built by the constructor, [__getitem__] raises
    [IndexError] exactly for the indices outside [-len, len): in
    particular for every index when the dataset is empty. *)
Theorem getitem_IndexError_iff (source_texts class_labels : list pyval)
    (self : PromptedClassificationDataset.t) (idx : Z) :
  PromptedClassificationDataset.__init__ source_texts class_labels = Ok self →
  PromptedClassificationDataset.__getitem__ self idx = Raise IndexError
  ↔ (idx < - PromptedClassificationDataset.__len__ self
     ∨ PromptedClassificationDataset.__len__ self ≤ idx).
Proof.
  unfold PromptedClassificationDataset.__init__.
  case_bool_decide as Hlen; [|done]. intros [= <-].
  unfold PromptedClassificationDataset.__getitem__,
         PromptedClassificationDataset.__len__.
  cbn [PromptedClassificationDataset.source_texts
       PromptedClassificationDataset.class_labels].
  split.
  - intros H.
    destruct (decide (idx < - Z.of_nat (length source_texts)
                      ∨ Z.of_nat (length source_texts) ≤ idx)) as [|Hin]; [done|].
    exfalso.
    assert (∀ l : list pyval, length l = length source_texts →
              ∃ x, list_getitem l idx = Ok x) as Hok.
    { intros l Hl. destruct (decide (idx < 0)).
      - rewrite list_getitem_negative by lia.
        destruct (list_getitem_in_range l (idx + Z.of_nat (length l)))
          as (x & _ & ->); [lia|]. by exists x.
      - destruct (list_getitem_in_range l idx) as (x & _ & ->); [lia|].
        by exists x. }
    destruct (Hok source_texts eq_refl) as [text Htext].
    destruct (Hok class_labels) as [label Hlabel]; [done|].
    by rewrite Htext, Hlabel in H.
  - intros Hout. by rewrite list_getitem_out_of_range.
Qed.

Lemma getitem_IndexError_iff_witness :
  PromptedClassificationDataset.__getitem__
    (PromptedClassificationDataset.mk [] []) 0 = Raise IndexError.
Proof.
  apply (getitem_IndexError_iff [] []); [reflexivity|].
  right. vm_compute. discriminate.
Defined.

(** X3. On a dataset built by the constructor, a negative index in range
    counts from the end: [__getitem__ idx] is [__getitem__ (idx + len)],
    the dict pairing the text and the label at that place. *)
Theorem getitem_negative_index (source_texts class_labels : list pyval)
    (self : PromptedClassificationDataset.t) (idx : Z) :
  PromptedClassificationDataset.__init__ source_texts class_labels = Ok self →
  - PromptedClassificationDataset.__len__ self ≤ idx < 0 →
  PromptedClassificationDataset.__getitem__ self idx
  = PromptedClassificationDataset.__getitem__ self
      (idx + PromptedClassificationDataset.__len__ self)
  ∧ ∃ text label,
      source_texts !! Z.to_nat (idx + Z.of_nat (length source_texts)) = Some text ∧
      class_labels !! Z.to_nat (idx + Z.of_nat (length class_labels)) = Some label ∧
      PromptedClassificationDataset.__getitem__ self idx
      = Ok {[ "source_texts" := text; "class_labels" := label ]}.
Proof.
  unfold PromptedClassificationDataset.__init__.
  case_bool_decide as Hlen; [|done]. intros [= <-].
  unfold PromptedClassificationDataset.__getitem__,
         PromptedClassificationDataset.__len__.
  cbn [PromptedClassificationDataset.source_texts
       PromptedClassificationDataset.class_labels].
  intros Hi.
  rewrite (list_getitem_negative source_texts) by done.
  rewrite (list_getitem_negative class_labels) by lia.
  rewrite <- Hlen. split; [done|].
  destruct (list_getitem_in_range source_texts
              (idx + Z.of_nat (length source_texts))) as (text & Htext & ->); [lia|].
  destruct (list_getitem_in_range class_labels
              (idx + Z.of_nat (length source_texts))) as (label & Hlabel & ->); [lia|].
  by exists text, label.
Qed.

Lemma getitem_negative_index_witness :
  PromptedClassificationDataset.__getitem__
    (PromptedClassificationDataset.mk [PyStr "a"; PyStr "b"] [PyInt 0; PyInt 1]) (-2)
  = PromptedClassificationDataset.__getitem__
      (PromptedClassificationDataset.mk [PyStr "a"; PyStr "b"] [PyInt 0; PyInt 1])
      (-2 + PromptedClassificationDataset.__len__
              (PromptedClassificationDataset.mk
                 [PyStr "a"; PyStr "b"] [PyInt 0; PyInt 1])).
Proof.
  apply (getitem_negative_index [PyStr "a"; PyStr "b"] [PyInt 0; PyInt 1]);
    [reflexivity | unfold PromptedClassificationDataset.__len__; simpl; lia].
Defined.

(** ** The loader when a step after the assertions fails *)

Section load_failures.
Context (G : gmap string pyobj) (read_csv : string → result DataFrame).
Context (seed_dict : gmap (option Z) string).
Context (dataset : string) (dataset_seed : option Z) (split base_path : string).
Context (num_shots : Z) (task_lm : string) (log : list event).
Hypothesis Hdataset : dataset ∈ ["CoLA"; "yelp"; "agnews"; "ReCoRD"; "QuAC"].
Hypothesis Hsplit : split ∈ ["train"; "dev"; "test"].
Hypothesis Hshots : num_shots = 16.
Hypothesis Hglobal : G !! "seed_dict" = Some (PyDict seed_dict).

(** X4. With [seed_dict] bound, a [dataset_seed] that is not one of its
    keys (the default [None] for a dict keyed by ints, say) raises
    [KeyError] before any file is read. *)
Theorem load_missing_seed :
  seed_dict !! dataset_seed = None →
  load_few_shot_classification_dataset G read_csv
    dataset dataset_seed split base_path num_shots task_lm log
  = (Raise KeyError, log).
Proof.
  intros Hseed. subst num_shots.
  by rewrite load_accepted, Hglobal, Hseed.
Qed.

(** X5. Whatever [read_csv] raises for the split's file (a missing file, a
    parse error) leaves the loader unchanged, after that one read and
    before any column or verbalizer is looked at. *)
Theorem load_propagates_read_error (seed_path : string) (e : exn) :
  seed_dict !! dataset_seed = Some seed_path →
  read_csv (os_path_join base_path
              ("16-shot/" +:+ dataset +:+ "/" +:+ seed_path +:+ "/" +:+ split +:+ ".tsv"))
    = Raise e →
  load_few_shot_classification_dataset G read_csv
    dataset dataset_seed split base_path num_shots task_lm log
  = (Raise e,
     (log ++ [ReadCsv (os_path_join base_path
                         ("16-shot/" +:+ dataset +:+ "/" +:+ seed_path
                            +:+ "/" +:+ split +:+ ".tsv"))])%list).
Proof.
  intros Hseed Hread. subst num_shots.
  rewrite load_accepted, Hglobal, Hseed by done. cbv zeta.
  change (format_filepath 16 dataset seed_path split)
    with ("16-shot/" +:+ dataset +:+ "/" +:+ seed_path +:+ "/" +:+ split +:+ ".tsv").
  by rewrite Hread.
Qed.

(** X6. A frame without the columns the loader reads makes it raise
    [AttributeError] after the read: for 'sentence' when the frame has
    neither a 'text' nor a 'sentence' column (whether or not it has
    labels), for 'label' when it has one of the two but no 'label'
    column. *)
Theorem load_missing_columns (seed_path : string) (df : DataFrame) :
  seed_dict !! dataset_seed = Some seed_path →
  read_csv (os_path_join base_path
              ("16-shot/" +:+ dataset +:+ "/" +:+ seed_path +:+ "/" +:+ split +:+ ".tsv"))
    = Ok df →
  let outcome :=
    load_few_shot_classification_dataset G read_csv
      dataset dataset_seed split base_path num_shots task_lm log in
  let log' :=
    (log ++ [ReadCsv (os_path_join base_path
                        ("16-shot/" +:+ dataset +:+ "/" +:+ seed_path
                           +:+ "/" +:+ split +:+ ".tsv"))])%list in
  (df !! "text" = None → df !! "sentence" = None →
   outcome = (Raise (AttributeError "sentence"), log')) ∧
  (is_Some (df !! "text") ∨ is_Some (df !! "sentence") →
   df !! "label" = None →
   outcome = (Raise (AttributeError "label"), log')).
Proof.
  intros Hseed Hread outcome log'. subst outcome log' num_shots.
  rewrite load_accepted, Hglobal, Hseed by done. cbv zeta.
  change (format_filepath 16 dataset seed_path split)
    with ("16-shot/" +:+ dataset +:+ "/" +:+ seed_path +:+ "/" +:+ split +:+ ".tsv").
  rewrite Hread. unfold column. split.
  - intros Htext Hsentence.
    rewrite bool_decide_eq_false_2 by (by apply not_elem_of_dom).
    by rewrite Hsentence.
  - intros Hcol Hlabel. rewrite Hlabel.
    case_bool_decide as Hdom.
    + apply elem_of_dom in Hdom as [text Htext].
      unfold DataFrame in *. by rewrite Htext.
    + apply not_elem_of_dom in Hdom.
      destruct Hcol as [[text Htext]|[sentence Hsentence]];
        unfold DataFrame in *; [congruence|by rewrite Hsentence].
Qed.

End load_failures.

Lemma load_missing_seed_witness :
  load_few_shot_classification_dataset seeded_globals (read_from sample_fs)
    "agnews" None "train" "./data" 16 "roberta-large" []
  = (Raise KeyError, []).
Proof.
  apply (load_missing_seed seeded_globals (read_from sample_fs)
           {[ Some 0 := "16-100"; Some 1 := "16-13" ]});
    [by_computation | by_computation | reflexivity
    | vm_compute; reflexivity | vm_compute; reflexivity].
Defined.

Lemma load_propagates_read_error_witness :
  load_few_shot_classification_dataset seeded_globals (read_from sample_fs)
    "yelp" (Some 1) "dev" "/srv/data/" 16 "gpt2" []
  = (Raise (FileNotFoundError "/srv/data/16-shot/yelp/16-13/dev.tsv"),
     [ReadCsv "/srv/data/16-shot/yelp/16-13/dev.tsv"]).
Proof.
  refine (load_propagates_read_error seeded_globals (read_from sample_fs)
            {[ Some 0 := "16-100"; Some 1 := "16-13" ]}
            "yelp" (Some 1) "dev" "/srv/data/" 16 "gpt2" [] _ _ _ _
            "16-13" (FileNotFoundError "/srv/data/16-shot/yelp/16-13/dev.tsv") _ _);
    first [by_computation | vm_compute; reflexivity].
Defined.

Lemma load_missing_columns_witness :
  load_few_shot_classification_dataset seeded_globals (read_from broken_fs)
    "agnews" (Some 0) "test" "./data" 16 "roberta-large" []
  = (Raise (AttributeError "sentence"),
     [ReadCsv "./data/16-shot/agnews/16-100/test.tsv"])
  ∧ load_few_shot_classification_dataset seeded_globals (read_from broken_fs)
      "agnews" (Some 0) "dev" "./data" 16 "roberta-large" []
    = (Raise (AttributeError "label"),
       [ReadCsv "./data/16-shot/agnews/16-100/dev.tsv"]).
Proof.
  split.
  - refine (proj1 (load_missing_columns seeded_globals (read_from broken_fs)
                     {[ Some 0 := "16-100"; Some 1 := "16-13" ]}
                     "agnews" (Some 0) "test" "./data" 16 "roberta-large" []
                     _ _ _ _ "16-100" textless_frame _ _) _ _);
      first [by_computation | vm_compute; reflexivity].
  - refine (proj2 (load_missing_columns seeded_globals (read_from broken_fs)
                     {[ Some 0 := "16-100"; Some 1 := "16-13" ]}
                     "agnews" (Some 0) "dev" "./data" 16 "roberta-large" []
                     _ _ _ _ "16-100" unlabelled_frame _ _) _ _);
      first [by_computation | vm_compute; reflexivity
            | right; eexists; vm_compute; reflexivity].
Defined.

(** ** make_few_shot_classification_dataset end to end *)

Section make_more.
Context (G : gmap string pyobj) (read_csv : string → result DataFrame).

(** X7. A config whose dataset is not one of the five, or whose
    [num_shots] is not 16, makes the factory raise [AssertionError] on its
    first iteration, with nothing read, whatever the global namespace
    holds. *)
Theorem make_rejects_config (config : DictConfig.t) (log : list event) :
  DictConfig.dataset config ∉ ["CoLA"; "yelp"; "agnews"; "ReCoRD"; "QuAC"]
  ∨ DictConfig.num_shots config ≠ 16 →
  make_few_shot_classification_dataset G read_csv config log
  = (Raise AssertionError, log).
Proof.
  intros Hbad. rewrite make_unrolled. unfold load_split.
  rewrite load_rejected; [done|]. unfold datasets. tauto.
Qed.

(** X8. The loop stops at the first split whose load (or whose dataset
    constructor) raises: the exception is the factory's, and the later
    splits are never read. *)
Theorem make_stops_at_first_failure (config : DictConfig.t) (log : list event)
    (e : exn) :
  (∀ evs,
     run (load_split G read_csv config "train") = (Raise e, evs) →
     make_few_shot_classification_dataset G read_csv config log
     = (Raise e, (log ++ evs)%list)) ∧
  (∀ texts1 labels1 n v t evs1 evs2,
     run (load_split G read_csv config "train")
     = (Ok (texts1, labels1, n, v, t), evs1) →
     length texts1 = length labels1 →
     run (load_split G read_csv config "dev") = (Raise e, evs2) →
     make_few_shot_classification_dataset G read_csv config log
     = (Raise e, (log ++ evs1 ++ evs2)%list)) ∧
  (∀ texts1 labels1 texts2 labels2 n v t n' v' t' evs1 evs2 evs3,
     run (load_split G read_csv config "train")
     = (Ok (texts1, labels1, n, v, t), evs1) →
     length texts1 = length labels1 →
     run (load_split G read_csv config "dev")
     = (Ok (texts2, labels2, n', v', t'), evs2) →
     length texts2 = length labels2 →
     run (load_split G read_csv config "test") = (Raise e, evs3) →
     make_few_shot_classification_dataset G read_csv config log
     = (Raise e, (log ++ evs1 ++ evs2 ++ evs3)%list)).
Proof.
  assert (∀ split l, load_split G read_csv config split l
            = ((run (load_split G read_csv config split)).1,
               (l ++ (run (load_split G read_csv config split)).2)%list)) as Happ
    by (intros split l; apply load_appends).
  split_and!.
  - intros evs H1. rewrite make_unrolled, Happ, H1. done.
  - intros x1 y1 n v t evs1 evs2 H1 Hlen H2.
    rewrite make_unrolled, Happ, H1. cbn [fst snd].
    unfold PromptedClassificationDataset.__init__.
    rewrite (bool_decide_eq_true_2 _ Hlen).
    rewrite Happ, H2. cbn [fst snd]. by rewrite app_assoc.
  - intros x1 y1 x2 y2 n v t n' v' t' evs1 evs2 evs3 H1 Hlen1 H2 Hlen2 H3.
    rewrite make_unrolled, Happ, H1. cbn [fst snd].
    unfold PromptedClassificationDataset.__init__.
    rewrite (bool_decide_eq_true_2 _ Hlen1).
    rewrite Happ, H2. cbn [fst snd].
    rewrite (bool_decide_eq_true_2 _ Hlen2).
    rewrite Happ, H3. cbn [fst snd]. by rewrite !app_assoc.
Qed.

(** An object the constructor built pairs its lists place by place. *)
Lemma init_serves (df : DataFrame) (texts labels : list pyval)
    (ds : PromptedClassificationDataset.t) :
  (if bool_decide ("text" ∈ dom df) then df !! "text" else df !! "sentence")
    = Some texts →
  df !! "label" = Some labels →
  PromptedClassificationDataset.__init__ texts labels = Ok ds →
  serves_rows df ds.
Proof.
  intros Htexts Hlabels Hinit.
  unfold PromptedClassificationDataset.__init__ in Hinit.
  destruct (decide (length texts = length labels)) as [Hlen|Hlen];
    [rewrite (bool_decide_eq_true_2 _ Hlen) in Hinit
    |by rewrite (bool_decide_eq_false_2 _ Hlen) in Hinit].
  injection Hinit as <-.
  exists texts, labels.
  unfold PromptedClassificationDataset.__len__,
         PromptedClassificationDataset.__getitem__.
  cbn [PromptedClassificationDataset.source_texts
       PromptedClassificationDataset.class_labels].
  split_and!; try done.
  - case_bool_decide as Hdom; [by left|right].
    split; [|done]. by apply not_elem_of_dom.
  - by rewrite Hlen.
  - intros i Hi.
    destruct (list_getitem_in_range texts i) as (text & Htext & ->); [lia|].
    destruct (list_getitem_in_range labels i) as (label & Hlabel & ->); [lia|].
    by exists text, label.
Qed.

(** X9. When the factory returns, each of the three datasets serves the
    rows of its own split's file: there is one seed directory, the three
    files under it were parsed, and item [i] of a dataset pairs row [i] of
    the text column of its file with row [i] of the label column. *)
Theorem make_serves_rows (config : DictConfig.t) (log : list event)
    train dev test num_classes verbalizers template log' :
  make_few_shot_classification_dataset G read_csv config log
  = (Ok (train, dev, test, num_classes, verbalizers, template), log') →
  ∃ seed_path df_train df_dev df_test,
    read_csv (split_path config seed_path "train") = Ok df_train ∧
    read_csv (split_path config seed_path "dev") = Ok df_dev ∧
    read_csv (split_path config seed_path "test") = Ok df_test ∧
    serves_rows df_train train ∧
    serves_rows df_dev dev ∧
    serves_rows df_test test.
Proof.
  rewrite make_unrolled. unfold load_split.
  destruct (load_few_shot_classification_dataset _ _ _ _ "train" _ _ _ _)
    as [[[[[[x1 y1] n1] v1] t1]|e1] l1] eqn:E1; [|done].
  destruct (PromptedClassificationDataset.__init__ x1 y1) as [d1|?] eqn:I1; [|done].
  destruct (load_few_shot_classification_dataset _ _ _ _ "dev" _ _ _ _)
    as [[[[[[x2 y2] n2] v2] t2]|e2] l2] eqn:E2; [|done].
  destruct (PromptedClassificationDataset.__init__ x2 y2) as [d2|?] eqn:I2; [|done].
  destruct (load_few_shot_classification_dataset _ _ _ _ "test" _ _ _ _)
    as [[[[[[x3 y3] n3] v3] t3]|e3] l3] eqn:E3; [|done].
  destruct (PromptedClassificationDataset.__init__ x3 y3) as [d3|?] eqn:I3; [|done].
  intros [= -> -> -> -> -> -> ->].
  apply load_returns_iff in E1
    as (_ & _ & _ & sd1 & sp1 & df1 & HG1 & Hs1 & Hrc1 & _ & Ht1 & Hl1 & _).
  apply load_returns_iff in E2
    as (_ & _ & _ & sd2 & sp2 & df2 & HG2 & Hs2 & Hrc2 & _ & Ht2 & Hl2 & _).
  apply load_returns_iff in E3
    as (_ & _ & _ & sd3 & sp3 & df3 & HG3 & Hs3 & Hrc3 & _ & Ht3 & Hl3 & _).
  simplify_eq.
  exists sp1, df1, df2, df3.
  split_and!; try done; by eapply init_serves.
Qed.

End make_more.

Lemma make_rejects_config_witness :
  make_few_shot_classification_dataset seeded_globals (read_from sample_fs)
    sst2_config []
  = (Raise AssertionError, [])
  ∧ make_few_shot_classification_dataset seeded_globals (read_from sample_fs)
      shots32_config []
    = (Raise AssertionError, []).
Proof.
  split.
  - apply make_rejects_config. left. by_computation.
  - apply make_rejects_config. right. discriminate.
Defined.

Example make_seeded_run :
  run (make_few_shot_classification_dataset seeded_globals (read_from sample_fs)
         (agnews_config "roberta-large"))
  = (Ok (PromptedClassificationDataset.mk
           [PyStr "good film"; PyStr "dull"] [PyInt 1; PyInt 0],
         PromptedClassificationDataset.mk [PyStr "stocks fall"] [PyInt 2],
         PromptedClassificationDataset.mk [PyStr "stocks fall"] [PyInt 2],
         2, [G_terrible; G_great], Some "<mask> {clean_prompt} {sentence}"),
     [ReadCsv "./data/16-shot/agnews/16-100/train.tsv";
      ReadCsv "./data/16-shot/agnews/16-100/dev.tsv";
      ReadCsv "./data/16-shot/agnews/16-100/test.tsv"]).
Proof. vm_compute. reflexivity. Qed.

Lemma make_stops_at_first_failure_witness :
  make_few_shot_classification_dataset seeded_globals (read_from broken_fs)
    (agnews_config "roberta-large") []
  = (Raise (AttributeError "label"),
     [ReadCsv "./data/16-shot/agnews/16-100/train.tsv";
      ReadCsv "./data/16-shot/agnews/16-100/dev.tsv"]).
Proof.
  refine (proj1 (proj2 (make_stops_at_first_failure seeded_globals
                          (read_from broken_fs) (agnews_config "roberta-large") []
                          (AttributeError "label")))
            [PyStr "good film"; PyStr "dull"] [PyInt 1; PyInt 0]
            2 [G_terrible; G_great] (Some "<mask> {clean_prompt} {sentence}")
            [ReadCsv "./data/16-shot/agnews/16-100/train.tsv"]
            [ReadCsv "./data/16-shot/agnews/16-100/dev.tsv"] _ _ _);
    vm_compute; reflexivity.
Defined.

Lemma make_serves_rows_witness :
  ∃ seed_path df_train df_dev df_test,
    read_from sample_fs
      (split_path (agnews_config "roberta-large") seed_path "train") = Ok df_train ∧
    read_from sample_fs
      (split_path (agnews_config "roberta-large") seed_path "dev") = Ok df_dev ∧
    read_from sample_fs
      (split_path (agnews_config "roberta-large") seed_path "test") = Ok df_test ∧
    serves_rows df_train
      (PromptedClassificationDataset.mk
         [PyStr "good film"; PyStr "dull"] [PyInt 1; PyInt 0]) ∧
    serves_rows df_dev
      (PromptedClassificationDataset.mk [PyStr "stocks fall"] [PyInt 2]) ∧
    serves_rows df_test
      (PromptedClassificationDataset.mk [PyStr "stocks fall"] [PyInt 2]).
Proof.
  exact (make_serves_rows seeded_globals (read_from sample_fs)
           (agnews_config "roberta-large") [] _ _ _ _ _ _ _ make_seeded_run).
Defined.

(** ** From the dataset factory to the reward factory *)

(** X10. Fed with what [make_few_shot_classification_dataset] returned for
    the same config, [make_prompted_classification_reward] always
    configures a two-class reward: the constructor receives
    [num_classes] 2 and a list of exactly two verbalizers, the ones
    [get_dataset_verbalizers] gives for the config's dataset and model,
    'agnews' included. *)
Theorem reward_from_dataset_has_two_classes
    (G : gmap string pyobj) (read_csv : string → result DataFrame)
    (Reward : Type) (PromptedClassificationReward : list pyval → result Reward)
    (config : DictConfig.t) (log log' log2 : list event)
    train dev test num_classes verbalizers template :
  make_few_shot_classification_dataset G read_csv config log
  = (Ok (train, dev, test, num_classes, verbalizers, template), log') →
  ∃ v0 v1,
    get_dataset_verbalizers (DictConfig.dataset config) (DictConfig.task_lm config)
    = Ok [v0; v1] ∧
    let args :=
      [ PyStr (DictConfig.task_lm config);
        of_opt_bool (DictConfig.is_mask_lm config);
        PyBool (DictConfig.compute_zscore config);
        PyFloat (DictConfig.incorrect_coeff config);
        PyFloat (DictConfig.correct_coeff config);
        PyInt 2;
        PyList [PyStr v0; PyStr v1];
        of_opt_str template ] in
    make_prompted_classification_reward Reward PromptedClassificationReward
      num_classes verbalizers template config log2
    = (PromptedClassificationReward args, (log2 ++ [NewReward args])%list).
Proof.
  rewrite make_unrolled. unfold load_split.
  destruct (load_few_shot_classification_dataset _ _ _ _ "train" _ _ _ _)
    as [[[[[[x1 y1] n1] v1] t1]|e1] l1]; [|done].
  destruct (PromptedClassificationDataset.__init__ x1 y1) as [d1|?]; [|done].
  destruct (load_few_shot_classification_dataset _ _ _ _ "dev" _ _ _ _)
    as [[[[[[x2 y2] n2] v2] t2]|e2] l2]; [|done].
  destruct (PromptedClassificationDataset.__init__ x2 y2) as [d2|?]; [|done].
  destruct (load_few_shot_classification_dataset _ _ _ _ "test" _ _ _ _)
    as [[[[[[x3 y3] n3] v3] t3]|e3] l3] eqn:E3; [|done].
  destruct (PromptedClassificationDataset.__init__ x3 y3) as [d3|?]; [|done].
  intros [= -> -> -> -> -> -> ->].
  apply load_returns_iff in E3
    as (_ & _ & _ & ? & ? & ? & _ & _ & _ & _ & _ & _ & Hv & -> & _).
  pose proof (get_dataset_verbalizers_length _ _ _ Hv) as Hlen.
  destruct verbalizers as [|a [|b [|c rest]]]; try discriminate.
  exists a, b. split; [done|]. reflexivity.
Qed.

Lemma reward_from_dataset_has_two_classes_witness :
  ∃ v0 v1,
    get_dataset_verbalizers "agnews" "roberta-large" = Ok [v0; v1] ∧
    make_prompted_classification_reward (list pyval) Ok
      2 [G_terrible; G_great] (Some "<mask> {clean_prompt} {sentence}")
      (agnews_config "roberta-large") []
    = (Ok [ PyStr "roberta-large"; PyNone; PyBool true; PyFloat 180; PyFloat 200;
            PyInt 2; PyList [PyStr v0; PyStr v1];
            PyStr "<mask> {clean_prompt} {sentence}" ],
       [NewReward
          [ PyStr "roberta-large"; PyNone; PyBool true; PyFloat 180; PyFloat 200;
            PyInt 2; PyList [PyStr v0; PyStr v1];
            PyStr "<mask> {clean_prompt} {sentence}" ]]).
Proof.
  exact (reward_from_dataset_has_two_classes seeded_globals (read_from sample_fs)
           (list pyval) Ok (agnews_config "roberta-large") [] _ []
           _ _ _ _ _ _ make_seeded_run).
Defined.

(** ** The files of the three splits *)

(** Two split names give two relative paths, whatever they are joined to. *)
Lemma split_files_distinct (base_path dataset seed_path split split' : string) :
  split ≠ split' →
  os_path_join base_path (format_filepath 16 dataset seed_path split)
  ≠ os_path_join base_path (format_filepath 16 dataset seed_path split').
Proof.
  intros Hne. rewrite !os_path_join_filepath.
  assert (∀ a b : string, a +:+ ".tsv" = b +:+ ".tsv" → a = b) as Htail.
  { induction a as [|c a IH]; intros [|c' b] H; simpl in H.
    - done.
    - exfalso. injection H as -> H. destruct b as [|? [|? [|? [|? ?]]]]; discriminate.
    - exfalso. injection H as -> H. destruct a as [|? [|? [|? [|? ?]]]]; discriminate.
    - injection H as -> H. by rewrite (IH b H). }
  destruct (bool_decide _ || _); intros H; apply Hne;
    repeat (apply (inj (String.app _)) in H); by apply Htail.
Qed.

(** A read the loader logged is the read of its split's file. *)
Lemma load_logged_read (G : gmap string pyobj) (rc : string → result DataFrame)
    dataset seed split base ns lm log path :
  (load_few_shot_classification_dataset G rc dataset seed split base ns lm log).2
  = (log ++ [ReadCsv path])%list →
  ∃ d seed_path,
    G !! "seed_dict" = Some (PyDict d) ∧ d !! seed = Some seed_path ∧
    path = os_path_join base (format_filepath 16 dataset seed_path split).
Proof.
  assert (∀ x : event, log ≠ (log ++ [x])%list) as Hneq
    by (intros x H; by apply (app_singleton_neq log x)).
  destruct (decide (dataset ∈ datasets ∧ split ∈ ["train"; "dev"; "test"] ∧ ns = 16))
    as [(Hd & Hs & ->)|Hno];
    [|rewrite load_rejected by done; intros H; by apply Hneq in H].
  rewrite load_accepted by done.
  destruct (G !! "seed_dict") as [[|d]|] eqn:HG;
    [intros H; by apply Hneq in H | | intros H; by apply Hneq in H].
  destruct (d !! seed) as [sp|] eqn:Hseed; [|intros H; by apply Hneq in H].
  cbv zeta. intros H. exists d, sp. split_and!; try done.
  assert ((log ++ [ReadCsv (os_path_join base (format_filepath 16 dataset sp split))])%list
          = (log ++ [ReadCsv path])%list) as Heq
    by (rewrite <- H; by repeat case_match).
  apply app_inv_head in Heq. by injection Heq as <-.
Qed.

(** X11. The loader never reads two different splits from the same file:
    two calls that differ only in the split name (and in the model name
    and the log they start from), and that each log a read, log reads of
    different paths.  So when [make_few_shot_classification_dataset]
    returns, the three reads it logged, in the order train, dev, test,
    are of three different files. *)
Theorem splits_read_from_distinct_files
    (G : gmap string pyobj) (read_csv : string → result DataFrame) :
  (∀ dataset dataset_seed base_path num_shots
     split task_lm log path split' task_lm' log' path',
     split ≠ split' →
     (load_few_shot_classification_dataset G read_csv
        dataset dataset_seed split base_path num_shots task_lm log).2
     = (log ++ [ReadCsv path])%list →
     (load_few_shot_classification_dataset G read_csv
        dataset dataset_seed split' base_path num_shots task_lm' log').2
     = (log' ++ [ReadCsv path'])%list →
     path ≠ path') ∧
  (∀ config log train dev test num_classes verbalizers template log',
     make_few_shot_classification_dataset G read_csv config log
     = (Ok (train, dev, test, num_classes, verbalizers, template), log') →
     ∃ path1 path2 path3,
       log' = (log ++ [ReadCsv path1; ReadCsv path2; ReadCsv path3])%list ∧
       path1 ≠ path2 ∧ path1 ≠ path3 ∧ path2 ≠ path3).
Proof.
  assert (∀ dataset dataset_seed base_path num_shots
            split task_lm log path split' task_lm' log' path',
     split ≠ split' →
     (load_few_shot_classification_dataset G read_csv
        dataset dataset_seed split base_path num_shots task_lm log).2
     = (log ++ [ReadCsv path])%list →
     (load_few_shot_classification_dataset G read_csv
        dataset dataset_seed split' base_path num_shots task_lm' log').2
     = (log' ++ [ReadCsv path'])%list →
     path ≠ path') as Hloader.
  { intros dataset seed base ns split lm log path split' lm' log' path' Hne H1 H2.
    apply load_logged_read in H1 as (d & sp & HG & Hseed & ->).
    apply load_logged_read in H2 as (d' & sp' & HG' & Hseed' & ->).
    simplify_eq. by apply split_files_distinct. }
  split; [exact Hloader|].
  intros config log train dev test n v t log'.
  rewrite make_unrolled. unfold load_split.
  destruct (load_few_shot_classification_dataset _ _ _ _ "train" _ _ _ _)
    as [[[[[[x1 y1] n1] v1] t1]|e1] l1] eqn:E1; [|done].
  destruct (PromptedClassificationDataset.__init__ x1 y1) as [d1|?]; [|done].
  destruct (load_few_shot_classification_dataset _ _ _ _ "dev" _ _ _ _)
    as [[[[[[x2 y2] n2] v2] t2]|e2] l2] eqn:E2; [|done].
  destruct (PromptedClassificationDataset.__init__ x2 y2) as [d2|?]; [|done].
  destruct (load_few_shot_classification_dataset _ _ _ _ "test" _ _ _ _)
    as [[[[[[x3 y3] n3] v3] t3]|e3] l3] eqn:E3; [|done].
  destruct (PromptedClassificationDataset.__init__ x3 y3) as [d3|?]; [|done].
  intros [= -> -> -> -> -> -> ->].
  pose proof E1 as R1. pose proof E2 as R2. pose proof E3 as R3.
  apply load_returns_iff in R1
    as (_ & _ & _ & ? & sp1 & ? & _ & _ & _ & Hl1 & _).
  apply load_returns_iff in R2
    as (_ & _ & _ & ? & sp2 & ? & _ & _ & _ & Hl2 & _).
  apply load_returns_iff in R3
    as (_ & _ & _ & ? & sp3 & ? & _ & _ & _ & Hl3 & _).
  apply (f_equal snd) in E1, E2, E3. cbn [snd] in E1, E2, E3.
  rewrite Hl1 in E1. rewrite Hl2 in E2. rewrite Hl3 in E3.
  eexists _, _, _. split; [|split_and!].
  - rewrite Hl3, Hl2, Hl1. by rewrite <- !app_assoc.
  - eapply Hloader; [|exact E1|exact E2]. discriminate.
  - eapply Hloader; [|exact E1|exact E3]. discriminate.
  - eapply Hloader; [|exact E2|exact E3]. discriminate.
Qed.

Lemma splits_read_from_distinct_files_witness :
  ∃ path1 path2 path3,
    [ReadCsv "./data/16-shot/agnews/16-100/train.tsv";
     ReadCsv "./data/16-shot/agnews/16-100/dev.tsv";
     ReadCsv "./data/16-shot/agnews/16-100/test.tsv"]
    = ([] ++ [ReadCsv path1; ReadCsv path2; ReadCsv path3])%list ∧
    path1 ≠ path2 ∧ path1 ≠ path3 ∧ path2 ≠ path3.
Proof.
  exact (proj2 (splits_read_from_distinct_files seeded_globals (read_from sample_fs))
           (agnews_config "roberta-large") [] _ _ _ _ _ _ _ make_seeded_run).
Defined.
